(** * GestureInteraction: the gesture classifier and the scene animator

    A shallow embedding of the first-party logic of the hand-gesture demo:
    - [types.ts]: [HandState], [INITIAL_HAND_STATE], [PINCH_THRESHOLD];
    - [HandTracker]: [isHandOpen], [predictWebcam], [updateHandState];
    - [SceneContent]: the [useFrame] callback.

    JavaScript numbers are IEEE 754 binary64 values; they are embedded as
    Rocq's primitive [float], whose [+ - * / sqrt < <=] are the same
    correctly rounded operations.  The two React refs written by the tracker
    ([isZoomActiveRef], [handStateRef]) are threaded as explicit state, and
    reading a property of [undefined] (an array indexed out of range) is a
    [TypeError] completion that leaves the refs as they were at the throw. *)

From Stdlib Require Import Floats List Bool Arith ZArith Lia.
Import ListNotations.
From Stdlib Require String.
Import String.StringSyntax.
Delimit Scope string_scope with string.
Set Warnings "-inexact-float".
Local Open Scope float_scope.

(** ** Completions and the ref-passing monad *)

Inductive Completion (A : Type) : Type :=
| Normal (a : A)
| TypeError.
Arguments Normal {A} a.
Arguments TypeError {A}.

Class Monad (m : Type -> Type) : Type :=
  { ret : forall {A}, A -> m A;
    bind : forall {A B}, m A -> (A -> m B) -> m B }.

Notation "x <- c ;; k" := (bind c (fun x => k))
  (at level 61, c at next level, right associativity).
Notation "c ;; k" := (bind c (fun _ => k))
  (at level 61, right associativity).

#[global] Instance Completion_Monad : Monad Completion :=
  {| ret := fun A a => Normal a;
     bind := fun A B c k =>
       match c with
       | Normal a => k a
       | TypeError => TypeError
       end |}.

(** A computation over refs [S]: the refs written before a throw stay written. *)
Definition Eff (S A : Type) : Type := S -> Completion A * S.

#[global] Instance Eff_Monad (S : Type) : Monad (Eff S) :=
  {| ret := fun A a s => (Normal a, s);
     bind := fun A B c k s =>
       match c s with
       | (Normal a, s') => k a s'
       | (TypeError, s') => (TypeError, s')
       end |}.

Definition lift {S A : Type} (c : Completion A) : Eff S A := fun s => (c, s).
Definition modify {S : Type} (f : S -> S) : Eff S unit := fun s => (Normal tt, f s).
Definition gets {S A : Type} (f : S -> A) : Eff S A := fun s => (Normal (f s), s).

Definition exec {S A : Type} (c : Eff S A) (s : S) : S := snd (c s).
Definition outcome {S A : Type} (c : Eff S A) (s : S) : Completion A := fst (c s).

(** [a[i]] followed by a property read: [undefined.x] throws. *)
Definition deref {A : Type} (a : list A) (i : nat) : Completion A :=
  match nth_error a i with
  | Some v => Normal v
  | None => TypeError
  end.

(** ** The [Math] functions of ECMA-262 with an exact definition *)

Module Math.

Definition is_pos_zero (n : float) : bool :=
  match classify n with PZero => true | _ => false end.
Definition is_neg_zero (n : float) : bool :=
  match classify n with NZero => true | _ => false end.

(** [Math.max]: start from -Infinity; a NaN argument answers NaN at once;
    +0 beats -0; otherwise keep the greater. *)
Fixpoint max_from (highest : float) (coerced : list float) : float :=
  match coerced with
  | [] => highest
  | number :: rest =>
      if is_nan number then nan
      else
        let highest :=
          if is_pos_zero number && is_neg_zero highest then number else highest in
        let highest := if highest <? number then number else highest in
        max_from highest rest
  end.
Definition max (args : list float) : float := max_from neg_infinity args.

(** [Math.min]: the mirror image, starting from +Infinity. *)
Fixpoint min_from (lowest : float) (coerced : list float) : float :=
  match coerced with
  | [] => lowest
  | number :: rest =>
      if is_nan number then nan
      else
        let lowest :=
          if is_neg_zero number && is_pos_zero lowest then number else lowest in
        let lowest := if number <? lowest then number else lowest in
        min_from lowest rest
  end.
Definition min (args : list float) : float := min_from infinity args.

Definition sqrt (v : float) : float := PrimFloat.sqrt v.

Definition PI : float := 3.141592653589793.

End Math.

(** ** types.ts *)

Module Landmark.
(** One keypoint of a detected hand, in normalized frame coordinates. *)
Record t : Type := mk { x : float; y : float; z : float }.
End Landmark.

Module Position.
Record t : Type := mk { x : float; y : float }.
End Position.

Inductive Mode : Type := IDLE | ZOOM | ROTATE.

Definition Mode_eqb (a b : Mode) : bool :=
  match a, b with
  | IDLE, IDLE | ZOOM, ZOOM | ROTATE, ROTATE => true
  | _, _ => false
  end.

Record HandState : Type := mkHandState
  { pinchDistance : float;
    handDistance : float;
    isPinched : bool;
    position : Position.t;
    isDetected : bool;
    mode : Mode }.

Definition INITIAL_HAND_STATE : HandState :=
  {| pinchDistance := 1;
     handDistance := 0;
     isPinched := false;
     position := Position.mk 0 0;
     isDetected := false;
     mode := IDLE |}.

Definition PINCH_THRESHOLD : float := 0.05.
Definition ACTIVATION_DELAY : float := 100.

(** ** HandTracker *)

(** The 21 keypoints of one hand, as the landmarker returns them. *)
Definition Hand : Type := list Landmark.t.

Record HandLandmarkerResult : Type := mkResult { landmarks : list Hand }.

(** The refs of the tracker component that [predictWebcam] writes. *)
Record TrackerRefs : Type := mkRefs
  { isZoomActiveRef : bool;
    handStateRef : HandState }.

Definition set_isZoomActiveRef (b : bool) : Eff TrackerRefs unit :=
  modify (fun r => {| isZoomActiveRef := b; handStateRef := handStateRef r |}).
Definition set_handStateRef (h : HandState) : Eff TrackerRefs unit :=
  modify (fun r => {| isZoomActiveRef := isZoomActiveRef r; handStateRef := h |}).

Section Tracker.

(** [Math.hypot] is only "implementation-approximated" in ECMA-262, so it
    stays a parameter of the tracker. *)
Variable hypot : float -> float -> float.

Definition tips : list nat := [8; 12; 16; 20]%nat.
Definition pips : list nat := [6; 10; 14; 18]%nat.

(** Body of [for (let i = 0; i < 4; i++)], over the remaining values of [i]. *)
Fixpoint isHandOpen_loop (landmarks : Hand) (idxs : list nat)
    (extendedCount : nat) : Completion nat :=
  match idxs with
  | [] => Normal extendedCount
  | i :: rest =>
      tip <- deref landmarks (nth i tips 0%nat) ;;
      pip <- deref landmarks (nth i pips 0%nat) ;;
      wrist <- deref landmarks 0 ;;
      let dTip := hypot (Landmark.x tip - Landmark.x wrist)
                        (Landmark.y tip - Landmark.y wrist) in
      let dPip := hypot (Landmark.x pip - Landmark.x wrist)
                        (Landmark.y pip - Landmark.y wrist) in
      isHandOpen_loop landmarks rest
        (if dPip <? dTip then S extendedCount else extendedCount)
  end.

Definition isHandOpen (landmarks : Hand) : Completion bool :=
  extendedCount <- isHandOpen_loop landmarks (seq 0 4) 0%nat ;;
  ret (3 <=? extendedCount)%nat.

Definition updateHandState (result : HandLandmarkerResult) (detectedMode : Mode)
    : Eff TrackerRefs unit :=
  let pinchDistance := 1 in
  let handDistance := 0 in
  let position := Position.mk 0 0 in
  let isPinched := false in
  fields <-
    (if Mode_eqb detectedMode ZOOM && (length (landmarks result) =? 2)%nat then
       hand1 <- lift (deref (landmarks result) 0) ;;
       hand2 <- lift (deref (landmarks result) 1) ;;
       h1 <- lift (deref hand1 0) ;;
       h2 <- lift (deref hand2 0) ;;
       let dx := Landmark.x h1 - Landmark.x h2 in
       let dy := Landmark.y h1 - Landmark.y h2 in
       let handDistance := Math.sqrt (dx * dx + dy * dy) in
       let cx := (Landmark.x h1 + Landmark.x h2) / 2 in
       let cy := (Landmark.y h1 + Landmark.y h2) / 2 in
       let position := Position.mk ((0.5 - cx) * 2) ((cy - 0.5) * 2) in
       ret (pinchDistance, handDistance, isPinched, position)
     else if (0 <? length (landmarks result))%nat then
       lm <- lift (deref (landmarks result) 0) ;;
       thumb <- lift (deref lm 4) ;;
       index <- lift (deref lm 8) ;;
       wrist <- lift (deref lm 0) ;;
       let dx := Landmark.x thumb - Landmark.x index in
       let dy := Landmark.y thumb - Landmark.y index in
       let dz := Landmark.z thumb - Landmark.z index in
       let pinchDistance := Math.sqrt (dx * dx + dy * dy + dz * dz) in
       let isPinched := pinchDistance <? PINCH_THRESHOLD in
       let rawX := (Landmark.x thumb + Landmark.x wrist) / 2 in
       let rawY := (Landmark.y thumb + Landmark.y wrist) / 2 in
       let position := Position.mk ((0.5 - rawX) * 2) ((rawY - 0.5) * 2) in
       ret (pinchDistance, handDistance, isPinched, position)
     else
       ret (pinchDistance, handDistance, isPinched, position)) ;;
  let '(pinchDistance, handDistance, isPinched, position) := fields in
  set_handStateRef
    {| pinchDistance := pinchDistance;
       handDistance := handDistance;
       isPinched := isPinched;
       position := position;
       isDetected := true;
       mode := detectedMode |}.

Definition ZOOM_ACTIVATION_THRESHOLD : float := 0.2.

(** One detection cycle, from the landmarker's result on, past the guards
    that return at once while the landmarker, the video, the canvas or its
    2D context is missing.  The drawing calls are left out: they write to
    the 2D context only, which the gesture logic never reads back. *)
Definition predictWebcam (result : HandLandmarkerResult) : Eff TrackerRefs unit :=
  if (0 <? length (landmarks result))%nat then
    if (length (landmarks result) =? 2)%nat then
      hand1 <- lift (deref (landmarks result) 0) ;;
      hand2 <- lift (deref (landmarks result) 1) ;;
      h1 <- lift (deref hand1 0) ;;
      h2 <- lift (deref hand2 0) ;;
      let dx := Landmark.x h1 - Landmark.x h2 in
      let dy := Landmark.y h1 - Landmark.y h2 in
      let dist := Math.sqrt (dx * dx + dy * dy) in
      hand1Open <- lift (isHandOpen hand1) ;;
      hand2Open <- lift (isHandOpen hand2) ;;
      let bothHandsOpen := hand1Open && hand2Open in
      let bothHandsClosed := negb hand1Open && negb hand2Open in
      isZoomActive <- gets isZoomActiveRef ;;
      (if negb isZoomActive then
         if (dist <? ZOOM_ACTIVATION_THRESHOLD) && bothHandsClosed
         then set_isZoomActiveRef true
         else ret tt
       else
         if bothHandsOpen
         then set_isZoomActiveRef false
         else ret tt) ;;
      isZoomActive <- gets isZoomActiveRef ;;
      if isZoomActive
      then updateHandState result ZOOM
      else updateHandState result IDLE
    else
      set_isZoomActiveRef false ;;
      landmarks <- lift (deref (landmarks result) 0) ;;
      thumb <- lift (deref landmarks 4) ;;
      index <- lift (deref landmarks 8) ;;
      let dx := Landmark.x thumb - Landmark.x index in
      let dy := Landmark.y thumb - Landmark.y index in
      let dz := Landmark.z thumb - Landmark.z index in
      let currentDist := Math.sqrt (dx * dx + dy * dy + dz * dz) in
      let isPinched := currentDist <? PINCH_THRESHOLD in
      updateHandState result (if isPinched then ROTATE else IDLE)
  else
    set_isZoomActiveRef false ;;
    set_handStateRef
      {| pinchDistance := pinchDistance INITIAL_HAND_STATE;
         handDistance := handDistance INITIAL_HAND_STATE;
         isPinched := isPinched INITIAL_HAND_STATE;
         position := position INITIAL_HAND_STATE;
         isDetected := isDetected INITIAL_HAND_STATE;
         mode := mode INITIAL_HAND_STATE |}.

(** *** Vocabulary of the statements

    Closed forms of what the tracker computes on hands that have all their
    keypoints; the lemmas below relate them to the code above. *)

Definition origin : Landmark.t := Landmark.mk 0 0 0.

(** Keypoint [k] of a hand: wrist 0, thumb tip 4, index tip 8. *)
Definition keypoint (h : Hand) (k : nat) : Landmark.t := nth k h origin.

(** The landmarker's data model: 21 keypoints per detected hand. *)
Definition well_formed (h : Hand) : Prop := length h = 21%nat.

(** 2D distance from the wrist to keypoint [k]. *)
Definition wristTo (h : Hand) (k : nat) : float :=
  hypot (Landmark.x (keypoint h k) - Landmark.x (keypoint h 0))
        (Landmark.y (keypoint h k) - Landmark.y (keypoint h 0)).

(** The finger with tip [fst tp] and PIP joint [snd tp] is extended. *)
Definition extended (h : Hand) (tp : nat * nat) : bool :=
  wristTo h (snd tp) <? wristTo h (fst tp).

(** Index, middle, ring, pinky as (tip, PIP joint): [tips] zipped with [pips]. *)
Definition fingers : list (nat * nat) :=
  [(8, 6); (12, 10); (16, 14); (20, 18)]%nat.

Definition extendedFingers (h : Hand) : nat :=
  length (filter (extended h) fingers).

(** 2D distance between the wrists of two hands. *)
Definition wristDistance (a b : Hand) : float :=
  let dx := Landmark.x (keypoint a 0) - Landmark.x (keypoint b 0) in
  let dy := Landmark.y (keypoint a 0) - Landmark.y (keypoint b 0) in
  Math.sqrt (dx * dx + dy * dy).

(** 3D distance between thumb tip and index tip. *)
Definition thumbIndexDistance (h : Hand) : float :=
  let dx := Landmark.x (keypoint h 4) - Landmark.x (keypoint h 8) in
  let dy := Landmark.y (keypoint h 4) - Landmark.y (keypoint h 8) in
  let dz := Landmark.z (keypoint h 4) - Landmark.z (keypoint h 8) in
  Math.sqrt (dx * dx + dy * dy + dz * dz).

(** The mapping convention from raw frame coordinates to the scene. *)
Definition scenePosition (rx ry : float) : Position.t :=
  Position.mk ((0.5 - rx) * 2) ((ry - 0.5) * 2).

Definition midpoint (a b : float) : float := (a + b) / 2.

(** The record written in a two-hand frame whose latch is on. *)
Definition zoomState (a b : Hand) : HandState :=
  {| pinchDistance := 1;
     handDistance := wristDistance a b;
     isPinched := false;
     position :=
       scenePosition
         (midpoint (Landmark.x (keypoint a 0)) (Landmark.x (keypoint b 0)))
         (midpoint (Landmark.y (keypoint a 0)) (Landmark.y (keypoint b 0)));
     isDetected := true;
     mode := ZOOM |}.

(** The record written from the first hand alone, under mode [m]. *)
Definition singleState (h : Hand) (m : Mode) : HandState :=
  {| pinchDistance := thumbIndexDistance h;
     handDistance := 0;
     isPinched := thumbIndexDistance h <? PINCH_THRESHOLD;
     position :=
       scenePosition
         (midpoint (Landmark.x (keypoint h 4)) (Landmark.x (keypoint h 0)))
         (midpoint (Landmark.y (keypoint h 4)) (Landmark.y (keypoint h 0)));
     isDetected := true;
     mode := m |}.

(** The openness verdict and the latch update, on classified hands. *)
Definition handOpen (h : Hand) : bool := (3 <=? extendedFingers h)%nat.

Definition latchStep (latch : bool) (a b : Hand) : bool :=
  if latch then negb (handOpen a && handOpen b)
  else (wristDistance a b <? ZOOM_ACTIVATION_THRESHOLD)
       && (negb (handOpen a) && negb (handOpen b)).

End Tracker.

(** ** SceneContent *)

Module Euler.
Record t : Type := mk { x : float; y : float; z : float }.
Definition set_x (v : float) (e : t) : t := mk v (y e) (z e).
Definition set_y (v : float) (e : t) : t := mk (x e) v (z e).
End Euler.

Module Vector3.
Record t : Type := mk { x : float; y : float; z : float }.
Definition setScalar (scalar : float) (_ : t) : t := mk scalar scalar scalar.
End Vector3.

(** What the callback touches of a three.js object. *)
Record Object3D : Type := mkObject3D
  { rotation : Euler.t;
    scale : Vector3.t }.

Definition map_rotation (f : Euler.t -> Euler.t) (o : Object3D) : Object3D :=
  {| rotation := f (rotation o); scale := scale o |}.
Definition map_scale (f : Vector3.t -> Vector3.t) (o : Object3D) : Object3D :=
  {| rotation := rotation o; scale := f (scale o) |}.

(** The refs of the scene component; a [null] ref is [None]. *)
Record SceneRefs : Type := mkSceneRefs
  { groupRef : option Object3D;
    gridRef : option Object3D;
    atmosphereRef : option Object3D;
    ring1Ref : option Object3D;
    ring2Ref : option Object3D;
    particlesRef : option Object3D;
    currentRotation : Position.t;
    currentScale : float }.

Definition map_groupRef (f : Object3D -> Object3D) (r : SceneRefs) : SceneRefs :=
  mkSceneRefs (option_map f (groupRef r)) (gridRef r) (atmosphereRef r)
    (ring1Ref r) (ring2Ref r) (particlesRef r) (currentRotation r) (currentScale r).
Definition map_gridRef (f : Object3D -> Object3D) (r : SceneRefs) : SceneRefs :=
  mkSceneRefs (groupRef r) (option_map f (gridRef r)) (atmosphereRef r)
    (ring1Ref r) (ring2Ref r) (particlesRef r) (currentRotation r) (currentScale r).
Definition map_atmosphereRef (f : Object3D -> Object3D) (r : SceneRefs) : SceneRefs :=
  mkSceneRefs (groupRef r) (gridRef r) (option_map f (atmosphereRef r))
    (ring1Ref r) (ring2Ref r) (particlesRef r) (currentRotation r) (currentScale r).
Definition map_ring1Ref (f : Object3D -> Object3D) (r : SceneRefs) : SceneRefs :=
  mkSceneRefs (groupRef r) (gridRef r) (atmosphereRef r)
    (option_map f (ring1Ref r)) (ring2Ref r) (particlesRef r)
    (currentRotation r) (currentScale r).
Definition map_ring2Ref (f : Object3D -> Object3D) (r : SceneRefs) : SceneRefs :=
  mkSceneRefs (groupRef r) (gridRef r) (atmosphereRef r)
    (ring1Ref r) (option_map f (ring2Ref r)) (particlesRef r)
    (currentRotation r) (currentScale r).
Definition map_particlesRef (f : Object3D -> Object3D) (r : SceneRefs) : SceneRefs :=
  mkSceneRefs (groupRef r) (gridRef r) (atmosphereRef r)
    (ring1Ref r) (ring2Ref r) (option_map f (particlesRef r))
    (currentRotation r) (currentScale r).
Definition set_currentRotation (p : Position.t) (r : SceneRefs) : SceneRefs :=
  mkSceneRefs (groupRef r) (gridRef r) (atmosphereRef r)
    (ring1Ref r) (ring2Ref r) (particlesRef r) p (currentScale r).
Definition set_currentScale (v : float) (r : SceneRefs) : SceneRefs :=
  mkSceneRefs (groupRef r) (gridRef r) (atmosphereRef r)
    (ring1Ref r) (ring2Ref r) (particlesRef r) (currentRotation r) v.

Section Scene.

(** [Math.sin] and [Math.cos] are implementation-approximated, and
    [THREE.MathUtils.lerp] belongs to three.js: parameters of the callback. *)
Variables sin cos : float -> float.
Variable lerp : float -> float -> float -> float.

Definition lerpFactor : float := 0.1.

(** The two constants of the ZOOM block of the callback. *)
Definition normalizedDist (handDistance : float) : float :=
  Math.max [0; Math.min [1; (handDistance - 0.2) * 2]].
Definition targetScale (handDistance : float) : float :=
  0.8 + (normalizedDist handDistance * 3.2).

(** The per-frame callback: [hand] is [handStateRef.current] as read at its
    start, [time] the clock's elapsed time, [delta] the frame time. *)
Definition useFrame (hand : HandState) (time delta : float) (refs : SceneRefs)
    : SceneRefs :=
  (* Idle animation *)
  let refs := map_gridRef (map_rotation (Euler.set_y (time * 0.05))) refs in
  let refs := map_atmosphereRef (map_rotation (Euler.set_y (- time * 0.02))) refs in
  let refs := map_particlesRef (map_rotation (Euler.set_y (time * 0.03))) refs in
  let refs :=
    map_ring1Ref (fun o =>
      let o := map_rotation (Euler.set_x (Math.PI / 2 + sin (time * 0.2) * 0.1)) o in
      map_rotation (fun e => Euler.set_y (Euler.y e + delta * 0.2) e) o) refs in
  let refs :=
    map_ring2Ref (fun o =>
      let o := map_rotation (Euler.set_x (Math.PI / 2.2 + cos (time * 0.15) * 0.1)) o in
      map_rotation (fun e => Euler.set_y (Euler.y e - delta * 0.15) e) o) refs in
  (* Default drift if no hand detected *)
  let refs :=
    if negb (isDetected hand) then
      map_groupRef (fun o =>
        let o := map_rotation (fun e => Euler.set_y (Euler.y e + delta * 0.05) e) o in
        map_rotation (Euler.set_x (sin (time * 0.1) * 0.05)) o) refs
    else refs in
  let refs :=
    if isDetected hand then
      let refs :=
        if Mode_eqb (mode hand) ZOOM then
          set_currentScale
            (lerp (currentScale refs) (targetScale (handDistance hand)) lerpFactor) refs
        else refs in
      if Mode_eqb (mode hand) ROTATE then
        let targetRotX := Position.y (position hand) * 2.5 in
        let targetRotY := Position.x (position hand) * 2.5 in
        let refs :=
          set_currentRotation
            (Position.mk (lerp (Position.x (currentRotation refs)) targetRotX lerpFactor)
                         (Position.y (currentRotation refs))) refs in
        set_currentRotation
          (Position.mk (Position.x (currentRotation refs))
                       (lerp (Position.y (currentRotation refs)) targetRotY lerpFactor)) refs
      else refs
    else refs in
  (* Apply interaction transforms to main group *)
  map_groupRef (fun o =>
    let o := map_scale (Vector3.setScalar (currentScale refs)) o in
    if isDetected hand && Mode_eqb (mode hand) ROTATE then
      let o := map_rotation (Euler.set_x (Position.x (currentRotation refs))) o in
      map_rotation (Euler.set_y (Position.y (currentRotation refs))) o
    else if isDetected hand then
      map_rotation (fun e => Euler.set_x (lerp (Euler.x e) 0 0.05) e) o
    else o) refs.

End Scene.

(** [MathUtils.lerp] as three.js defines it. *)
Definition MathUtils_lerp (x y t : float) : float := (1 - t) * x + t * y.

(** A textbook [hypot], one admissible implementation of [Math.hypot]. *)
Definition hypot_sqrt (a b : float) : float := Math.sqrt (a * a + b * b).

(** ** Sample frames *)

(** A 21-keypoint hand: wrist at [(wx, wy)], the four fingertips [tipReach]
    and their PIP joints [pipReach] above it, thumb tip at [thumb]. *)
Definition sampleHand (wx wy tipReach pipReach : float) (thumb : Landmark.t) : Hand :=
  map (fun k =>
         if (k =? 0)%nat then Landmark.mk wx wy 0
         else if (k =? 4)%nat then thumb
         else if existsb (Nat.eqb k) tips then Landmark.mk wx (wy - tipReach) 0
         else if existsb (Nat.eqb k) pips then Landmark.mk wx (wy - pipReach) 0
         else Landmark.mk wx wy 0)
      (seq 0 21).

Definition fist (wx wy : float) : Hand :=
  sampleHand wx wy 0.05 0.1 (Landmark.mk (wx + 0.04) (wy - 0.05) 0).
Definition openHand (wx wy : float) : Hand :=
  sampleHand wx wy 0.2 0.1 (Landmark.mk (wx + 0.1) (wy - 0.1) 0).

(** The refs at mount: [useRef(false)] and [useRef(INITIAL_HAND_STATE)]. *)
Definition idleRefs : TrackerRefs := mkRefs false INITIAL_HAND_STATE.
Definition armedRefs : TrackerRefs := mkRefs true INITIAL_HAND_STATE.

(** Thumb tip exactly 0.05 to the right of the index tip. *)
Definition boundaryHand : Hand :=
  sampleHand 0 0.5 0.2 0.1 (Landmark.mk 0.05 (0.5 - 0.2) 0).

(** Thumb tip and wrist both at the centre of the frame. *)
Definition centredHand : Hand :=
  sampleHand 0.5 0.5 0.2 0.1 (Landmark.mk 0.5 0.5 0).

(** A record as the tracker emits it while zooming with hands 0.5 apart. *)
Definition zoomingHand : HandState :=
  {| pinchDistance := 1;
     handDistance := 0.5;
     isPinched := false;
     position := Position.mk 0 0;
     isDetected := true;
     mode := ZOOM |}.

Definition tiltedGroup : Object3D :=
  {| rotation := Euler.mk 0.4 1.25 0; scale := Vector3.mk 1 1 1 |}.

Definition tiltedScene : SceneRefs :=
  {| groupRef := Some tiltedGroup;
     gridRef := None;
     atmosphereRef := None;
     ring1Ref := None;
     ring2Ref := None;
     particlesRef := None;
     currentRotation := Position.mk 0 0;
     currentScale := 1.5 |}.

(** The affine map that sends [a] to [c] and [b] to [d]: what "linearly maps
    the range [a, b] onto the range [c, d]" denotes. *)
Definition linearMap (a b c d v : float) : float :=
  c + (v - a) / (b - a) * (d - c).

(** ** The on-canvas hint of the waiting branch

    The text [predictWebcam] prints next to the yellow line while two hands
    are visible and the latch is off.  Only emptiness of the text is
    tested, so the byte length of the literals plays no role. *)
Definition statusText (dist : float) (bothHandsClosed : bool) : String.string :=
  let statusText := ""%string in
  if ZOOM_ACTIVATION_THRESHOLD <=? dist then "靠近双手"%string
  else if negb bothHandsClosed then "握拳以激活"%string
  else statusText.

(** [if (statusText)]: a string is truthy unless it is empty. *)
Definition truthy (s : String.string) : bool := negb (String.eqb s ""%string).

(** ** The loops that drive the two callbacks *)

Section DetectionLoop.

Variable hypot : float -> float -> float.

(** [predictWebcam] ends with [requestAnimationFrame(predictWebcam)]: the
    next detection cycle runs only when this one returned; a cycle that
    throws schedules nothing. *)
Fixpoint detectionLoop (frames : list HandLandmarkerResult) : Eff TrackerRefs unit :=
  match frames with
  | [] => ret tt
  | result :: later => predictWebcam hypot result ;; detectionLoop later
  end.

(** *** Vocabulary of the further statements *)

(** The keypoints a frame must have for its property reads to succeed. *)
Definition enoughKeypoints (result : HandLandmarkerResult) : bool :=
  match landmarks result with
  | [] => true
  | [a; b] => (21 <=? length a)%nat && (21 <=? length b)%nat
  | h :: _ => (9 <=? length h)%nat
  end.

(** What one detection cycle returns and leaves in the refs. *)
Definition frameEffect (result : HandLandmarkerResult) (s : TrackerRefs)
    : Completion unit * TrackerRefs :=
  match landmarks result with
  | [] => (Normal tt, mkRefs false INITIAL_HAND_STATE)
  | [a; b] =>
      if (21 <=? length a)%nat && (21 <=? length b)%nat then
        (Normal tt,
         mkRefs (latchStep hypot (isZoomActiveRef s) a b)
           (if latchStep hypot (isZoomActiveRef s) a b
            then zoomState a b else singleState a IDLE))
      else (TypeError, s)
  | h :: _ =>
      if (9 <=? length h)%nat then
        (Normal tt,
         mkRefs false
           (singleState h
              (if thumbIndexDistance h <? PINCH_THRESHOLD then ROTATE else IDLE)))
      else (TypeError, mkRefs false (handStateRef s))
  end.

(** Two complete hands, both fists, wrists closer than the threshold. *)
Definition armingFrame (result : HandLandmarkerResult) : bool :=
  match landmarks result with
  | [a; b] =>
      (21 <=? length a)%nat && (21 <=? length b)%nat
      && (wristDistance a b <? ZOOM_ACTIVATION_THRESHOLD)
      && (negb (handOpen hypot a) && negb (handOpen hypot b))
  | _ => false
  end.

(** Two complete hands that are not both open. *)
Definition holdingFrame (result : HandLandmarkerResult) : bool :=
  match landmarks result with
  | [a; b] =>
      (21 <=? length a)%nat && (21 <=? length b)%nat
      && negb (handOpen hypot a && handOpen hypot b)
  | _ => false
  end.

End DetectionLoop.

(** The relations among the fields of an emitted record. *)
Definition coherent (hs : HandState) : Prop :=
  isPinched hs = (pinchDistance hs <? PINCH_THRESHOLD)
  /\ (mode hs = ROTATE -> isPinched hs = true)
  /\ (mode hs = ZOOM -> isPinched hs = false /\ pinchDistance hs = 1)
  /\ (mode hs <> ZOOM -> handDistance hs = 0)
  /\ (isDetected hs = false -> hs = INITIAL_HAND_STATE).

(** The keypoints [isHandOpen] reads: the wrist, and the PIP joint and tip
    of the four fingers. *)
Definition readByIsHandOpen : list nat := [0; 6; 8; 10; 12; 14; 16; 18; 20]%nat.

(** Same x and y at keypoint [k]. *)
Definition sameXY (h h' : Hand) (k : nat) : Prop :=
  Landmark.x (keypoint h k) = Landmark.x (keypoint h' k)
  /\ Landmark.y (keypoint h k) = Landmark.y (keypoint h' k).

(** One rendered frame: the record read from [handStateRef], the clock's
    elapsed time and the frame time. *)
Record Tick : Type := mkTick
  { tickHand : HandState;
    tickTime : float;
    tickDelta : float }.

Section RenderLoop.

Variables sin cos : float -> float.
Variable lerp : float -> float -> float -> float.

(** The renderer calls the [useFrame] callback once per rendered frame. *)
Definition renderLoop (ticks : list Tick) (refs : SceneRefs) : SceneRefs :=
  fold_left
    (fun refs t => useFrame sin cos lerp (tickHand t) (tickTime t) (tickDelta t) refs)
    ticks refs.

End RenderLoop.

(** A fist whose thumb tip sits elsewhere and whose keypoints have depth. *)
Definition fistWithDepth (wx wy : float) : Hand :=
  map (fun l => Landmark.mk (Landmark.x l) (Landmark.y l) 0.3)
      (sampleHand wx wy 0.05 0.1 (Landmark.mk (wx - 0.2) (wy + 0.2) 0)).

Definition idleHand : HandState := INITIAL_HAND_STATE.

Definition rotatingHand : HandState :=
  {| pinchDistance := 0.03;
     handDistance := 0;
     isPinched := true;
     position := Position.mk 0.2 (-0.4);
     isDetected := true;
     mode := ROTATE |}.

(** * Properties *)

Lemma deref_keypoint (h : Hand) (k : nat) :
  (k < length h)%nat -> deref h k = Normal (keypoint h k).
Proof.
  intros Hk. unfold deref, keypoint.
  destruct (nth_error h k) as [v|] eqn:E.
  - now rewrite (nth_error_nth h k origin E).
  - apply nth_error_None in E. lia.
Qed.

Lemma deref_short {A : Type} (a : list A) (k : nat) :
  (length a <= k)%nat -> deref a k = TypeError.
Proof.
  intros Hk. unfold deref. now rewrite (proj2 (nth_error_None a k) Hk).
Qed.

Lemma deref_Normal_lt {A : Type} (a : list A) (k : nat) (v : A) :
  deref a k = Normal v -> (k < length a)%nat.
Proof.
  unfold deref. destruct (nth_error a k) eqn:E; [|discriminate].
  intros _. apply nth_error_Some. congruence.
Qed.

Section TrackerFacts.

Variable hypot : float -> float -> float.

(** *** [isHandOpen] *)

Lemma isHandOpen_loop_step (h : Hand) (i : nat) (rest : list nat) (n : nat) :
  (nth i tips 0 < length h)%nat -> (nth i pips 0 < length h)%nat ->
  isHandOpen_loop hypot h (i :: rest) n =
  isHandOpen_loop hypot h rest
    (if extended hypot h (nth i tips 0%nat, nth i pips 0%nat) then S n else n).
Proof.
  intros Ht Hp. cbn [isHandOpen_loop].
  rewrite (deref_keypoint h _ Ht), (deref_keypoint h _ Hp).
  rewrite (deref_keypoint h 0) by lia.
  reflexivity.
Qed.

Lemma isHandOpen_closed_form (h : Hand) :
  (21 <= length h)%nat -> isHandOpen hypot h = Normal (handOpen hypot h).
Proof.
  intros Hlen. unfold isHandOpen. cbn [seq].
  rewrite !isHandOpen_loop_step by (cbn; lia).
  cbn [isHandOpen_loop nth tips pips bind ret Completion_Monad].
  unfold handOpen, extendedFingers, fingers. cbn [filter].
  destruct (extended hypot h (8, 6)%nat), (extended hypot h (12, 10)%nat),
           (extended hypot h (16, 14)%nat), (extended hypot h (20, 18)%nat);
    reflexivity.
Qed.

Lemma isHandOpen_loop_short (h : Hand) (idxs : list nat) (n : nat) :
  In 3%nat idxs -> (length h < 21)%nat ->
  isHandOpen_loop hypot h idxs n = TypeError.
Proof.
  intros Hin Hlen. revert n. induction idxs as [|i rest IH]; intros n.
  - contradiction.
  - cbn [isHandOpen_loop].
    destruct (deref h (nth i tips 0%nat)) as [tip|] eqn:Et; [|reflexivity].
    destruct (deref h (nth i pips 0%nat)) as [pip|] eqn:Ep; [|reflexivity].
    destruct (deref h 0) as [wrist|] eqn:Ew; [|reflexivity].
    cbn [bind Completion_Monad].
    destruct Hin as [->|Hin].
    + apply deref_Normal_lt in Et. cbn in Et. lia.
    + now apply IH.
Qed.

(** [isHandOpen] answers exactly on hands that reach keypoint 20. *)
Lemma isHandOpen_short (h : Hand) :
  (length h < 21)%nat -> isHandOpen hypot h = TypeError.
Proof.
  intros Hlen. unfold isHandOpen.
  rewrite isHandOpen_loop_short; [reflexivity| cbn; tauto | assumption].
Qed.

Lemma isHandOpen_Normal (h : Hand) (b : bool) :
  isHandOpen hypot h = Normal b ->
  (21 <= length h)%nat /\ b = handOpen hypot h.
Proof.
  intros H. destruct (le_lt_dec 21 (length h)) as [Hle|Hlt].
  - rewrite (isHandOpen_closed_form h Hle) in H. split; congruence.
  - rewrite (isHandOpen_short h Hlt) in H. discriminate.
Qed.

End TrackerFacts.

(** Unfold the monadic plumbing of one frame over literal hand lists. *)
Ltac frame_steps :=
  cbn [landmarks length Nat.ltb Nat.leb Nat.eqb bind ret Eff_Monad lift deref
       nth_error set_isZoomActiveRef modify].

Section TrackerRuns.

Variable hypot : float -> float -> float.

(** *** [updateHandState] *)

Lemma updateHandState_zoom (a b : Hand) (s : TrackerRefs) :
  (0 < length a)%nat -> (0 < length b)%nat ->
  updateHandState (mkResult [a; b]) ZOOM s =
  (Normal tt, mkRefs (isZoomActiveRef s) (zoomState a b)).
Proof.
  intros Ha Hb. unfold updateHandState.
  cbn [Mode_eqb landmarks length Nat.eqb andb bind ret Eff_Monad lift deref nth_error].
  rewrite (deref_keypoint a 0 Ha), (deref_keypoint b 0 Hb).
  reflexivity.
Qed.

Lemma updateHandState_first (h : Hand) (rest : list Hand) (m : Mode)
    (s : TrackerRefs) :
  m <> ZOOM -> (8 < length h)%nat ->
  updateHandState (mkResult (h :: rest)) m s =
  (Normal tt, mkRefs (isZoomActiveRef s) (singleState h m)).
Proof.
  intros Hm Hlen. unfold updateHandState.
  replace (Mode_eqb m ZOOM) with false by (destruct m; try reflexivity; congruence).
  cbn [landmarks length Nat.ltb Nat.leb andb bind ret Eff_Monad lift deref nth_error].
  rewrite (deref_keypoint h 4), (deref_keypoint h 8), (deref_keypoint h 0) by lia.
  reflexivity.
Qed.

(** The latch is not among the refs that [updateHandState] writes. *)
Lemma updateHandState_latch (r : HandLandmarkerResult) (m : Mode) (s : TrackerRefs) :
  isZoomActiveRef (exec (updateHandState r m) s) = isZoomActiveRef s.
Proof.
  unfold exec, updateHandState.
  cbn [bind ret Eff_Monad lift].
  destruct (Mode_eqb m ZOOM && (length (landmarks r) =? 2)%nat).
  - destruct (deref (landmarks r) 0) as [h1|]; [|reflexivity].
    destruct (deref (landmarks r) 1) as [h2|]; [|reflexivity].
    destruct (deref h1 0); [|reflexivity].
    destruct (deref h2 0); reflexivity.
  - destruct (0 <? length (landmarks r))%nat; [|reflexivity].
    destruct (deref (landmarks r) 0) as [lm|]; [|reflexivity].
    destruct (deref lm 4); [|reflexivity].
    destruct (deref lm 8); [|reflexivity].
    destruct (deref lm 0); reflexivity.
Qed.

(** *** [predictWebcam], by number of hands *)

Lemma predictWebcam_none (s : TrackerRefs) :
  predictWebcam hypot (mkResult []) s = (Normal tt, mkRefs false INITIAL_HAND_STATE).
Proof. reflexivity. Qed.

Lemma predictWebcam_first (h : Hand) (rest : list Hand) (s : TrackerRefs) :
  (length (h :: rest) =? 2)%nat = false -> (8 < length h)%nat ->
  predictWebcam hypot (mkResult (h :: rest)) s =
  (Normal tt,
   mkRefs false
     (singleState h
        (if thumbIndexDistance h <? PINCH_THRESHOLD then ROTATE else IDLE))).
Proof.
  intros Hn Hlen. unfold predictWebcam. cbn [landmarks]. rewrite Hn.
  change (0 <? length (h :: rest))%nat with true.
  cbn [bind ret Eff_Monad lift deref nth_error set_isZoomActiveRef modify].
  rewrite (deref_keypoint h 4), (deref_keypoint h 8) by lia.
  fold (thumbIndexDistance h).
  rewrite updateHandState_first.
  - reflexivity.
  - destruct (thumbIndexDistance h <? PINCH_THRESHOLD); discriminate.
  - assumption.
Qed.

Lemma predictWebcam_single (h : Hand) (s : TrackerRefs) :
  (8 < length h)%nat ->
  predictWebcam hypot (mkResult [h]) s =
  (Normal tt,
   mkRefs false
     (singleState h
        (if thumbIndexDistance h <? PINCH_THRESHOLD then ROTATE else IDLE))).
Proof. intros Hlen. now apply predictWebcam_first. Qed.

Lemma predictWebcam_two (a b : Hand) (s : TrackerRefs) :
  (21 <= length a)%nat -> (21 <= length b)%nat ->
  predictWebcam hypot (mkResult [a; b]) s =
  (Normal tt,
   mkRefs (latchStep hypot (isZoomActiveRef s) a b)
     (if latchStep hypot (isZoomActiveRef s) a b
      then zoomState a b else singleState a IDLE)).
Proof.
  intros Ha Hb. unfold predictWebcam.
  frame_steps.
  rewrite (deref_keypoint a 0), (deref_keypoint b 0) by lia.
  rewrite (isHandOpen_closed_form hypot a Ha), (isHandOpen_closed_form hypot b Hb).
  fold (wristDistance a b).
  unfold latchStep, gets. destruct s as [latch hs]. cbn [isZoomActiveRef].
  destruct latch; cbn [negb].
  - destruct (handOpen hypot a && handOpen hypot b);
      cbn [negb set_isZoomActiveRef modify isZoomActiveRef].
    + rewrite updateHandState_first by (discriminate || lia). reflexivity.
    + rewrite updateHandState_zoom by lia. reflexivity.
  - destruct ((wristDistance a b <? ZOOM_ACTIVATION_THRESHOLD)
              && (negb (handOpen hypot a) && negb (handOpen hypot b)));
      cbn [set_isZoomActiveRef modify isZoomActiveRef].
    + rewrite updateHandState_zoom by lia. reflexivity.
    + rewrite updateHandState_first by (discriminate || lia). reflexivity.
Qed.

(** A two-hand frame with a truncated hand throws before any ref is written. *)
Lemma predictWebcam_two_throws (a b : Hand) (s : TrackerRefs) :
  (length a < 21)%nat \/ (length b < 21)%nat ->
  predictWebcam hypot (mkResult [a; b]) s = (TypeError, s).
Proof.
  intros Hshort. unfold predictWebcam.
  frame_steps.
  destruct (deref a 0); [|reflexivity].
  destruct (deref b 0); [|reflexivity].
  destruct (isHandOpen hypot a) as [oa|] eqn:Ea; [|reflexivity].
  destruct (isHandOpen hypot b) as [ob|] eqn:Eb; [|reflexivity].
  apply isHandOpen_Normal in Ea, Eb. lia.
Qed.

End TrackerRuns.

(** ** Order facts on binary64 values *)

Lemma eqb_not_ltb (x y : float) : (x =? y) = true -> (x <? y) = false.
Proof.
  rewrite FloatAxioms.eqb_spec, FloatAxioms.ltb_spec. unfold SFeqb, SFltb.
  destruct (SFcompare (Prim2SF x) (Prim2SF y)) as [[]|]; congruence.
Qed.

Lemma compare_cont_Eq_antisym (p q : positive) :
  PosDef.Pos.compare_cont Eq q p = CompOpp (PosDef.Pos.compare_cont Eq p q).
Proof. symmetry. exact (Pos.compare_cont_antisym p q Eq). Qed.

Lemma SFcompare_antisym (f g : spec_float) :
  SFcompare g f = option_map CompOpp (SFcompare f g).
Proof.
  destruct f as [s| s| |s m e], g as [s'|s'| |s' m' e']; cbn;
    try destruct s; try destruct s'; try reflexivity.
  - rewrite (Z.compare_antisym e' e).
    destruct (e' ?= e)%Z; cbn; try reflexivity.
    now rewrite (compare_cont_Eq_antisym m m').
  - rewrite (Z.compare_antisym e' e).
    destruct (e' ?= e)%Z; cbn; try reflexivity.
    now rewrite (compare_cont_Eq_antisym m m').
Qed.

Lemma leb_not_ltb (x y : float) : (x <=? y) = true -> (y <? x) = false.
Proof.
  rewrite FloatAxioms.leb_spec, FloatAxioms.ltb_spec. unfold SFleb, SFltb.
  rewrite (SFcompare_antisym (Prim2SF x) (Prim2SF y)).
  destruct (SFcompare (Prim2SF x) (Prim2SF y)) as [[]|]; cbn; congruence.
Qed.

Lemma SFcompare_refl (f : spec_float) : f <> S754_nan -> SFcompare f f = Some Eq.
Proof.
  destruct f as [s|s| |s m e]; cbn; intros H; try congruence.
  - now destruct s.
  - destruct s; rewrite Z.compare_refl, Pos.compare_cont_refl; reflexivity.
Qed.

Lemma is_nan_false_iff (x : float) : is_nan x = false <-> Prim2SF x <> S754_nan.
Proof.
  unfold is_nan. rewrite FloatAxioms.eqb_spec. unfold SFeqb. split.
  - intros H E. rewrite E in H. discriminate.
  - intros H. now rewrite (SFcompare_refl _ H).
Qed.

Lemma ltb_not_nan_l (x y : float) : (x <? y) = true -> is_nan x = false.
Proof.
  intros H. apply is_nan_false_iff. intros E.
  rewrite FloatAxioms.ltb_spec, E in H. discriminate.
Qed.

Lemma ltb_not_nan_r (x y : float) : (x <? y) = true -> is_nan y = false.
Proof.
  intros H. apply is_nan_false_iff. intros E.
  rewrite FloatAxioms.ltb_spec, E in H.
  unfold SFltb in H. destruct (Prim2SF x); discriminate.
Qed.

Lemma leb_not_nan_l (x y : float) : (x <=? y) = true -> is_nan x = false.
Proof.
  intros H. apply is_nan_false_iff. intros E.
  rewrite FloatAxioms.leb_spec, E in H. discriminate.
Qed.

Lemma leb_not_nan_r (x y : float) : (x <=? y) = true -> is_nan y = false.
Proof.
  intros H. apply is_nan_false_iff. intros E.
  rewrite FloatAxioms.leb_spec, E in H.
  unfold SFleb in H. destruct (Prim2SF x); discriminate.
Qed.

Lemma Prim2SF_one : Prim2SF 1 = S754_finite false 4503599627370496 (-52).
Proof. vm_compute. reflexivity. Qed.

Lemma Prim2SF_zero : Prim2SF 0 = S754_zero false.
Proof. vm_compute. reflexivity. Qed.

Lemma nonpositive_below_one (v : float) : (v <=? 0) = true -> (v <? 1) = true.
Proof.
  rewrite FloatAxioms.leb_spec, FloatAxioms.ltb_spec, Prim2SF_zero, Prim2SF_one.
  unfold SFleb, SFltb, SFcompare.
  destruct (Prim2SF v) as [s|s| |s m e]; try destruct s;
    intros H; try discriminate H; reflexivity.
Qed.

(** ** [Math.max(0, Math.min(1, v))] by cases *)

Lemma min_one (v : float) :
  Math.min [1; v] = if is_nan v then nan else if v <? 1 then v else 1.
Proof.
  unfold Math.min. cbn [Math.min_from].
  change (is_nan 1) with false. change (Math.is_neg_zero 1) with false.
  change (1 <? infinity) with true. cbv iota. cbn [andb].
  change (Math.is_pos_zero 1) with false. rewrite andb_false_r.
  reflexivity.
Qed.

Lemma max_zero (m : float) :
  Math.max [0; m] = if is_nan m then nan else if 0 <? m then m else 0.
Proof.
  unfold Math.max. cbn [Math.max_from].
  change (is_nan 0) with false. change (Math.is_pos_zero 0) with true.
  change (Math.is_neg_zero neg_infinity) with false.
  change (neg_infinity <? 0) with true. cbv iota. cbn [andb].
  change (Math.is_neg_zero 0) with false. rewrite andb_false_r.
  reflexivity.
Qed.

Lemma normalizedDist_cases (handDistance : float) :
  let v := (handDistance - 0.2) * 2 in
  normalizedDist handDistance =
  if is_nan v then nan
  else if v <? 1 then (if 0 <? v then v else 0) else 1.
Proof.
  intros v. unfold normalizedDist. fold v. rewrite max_zero, min_one.
  destruct (is_nan v) eqn:Hnan; [reflexivity|].
  destruct (v <? 1); [rewrite Hnan|]; reflexivity.
Qed.

Lemma targetScale_low (hd : float) :
  ((hd - 0.2) * 2 <=? 0) = true -> targetScale hd = 0.8.
Proof.
  intros H. unfold targetScale. rewrite normalizedDist_cases. cbv zeta.
  rewrite (leb_not_nan_l _ _ H), (nonpositive_below_one _ H), (leb_not_ltb _ _ H).
  reflexivity.
Qed.

Lemma targetScale_linear (hd : float) :
  (0 <? (hd - 0.2) * 2) = true -> ((hd - 0.2) * 2 <? 1) = true ->
  targetScale hd = 0.8 + (hd - 0.2) * 2 * 3.2.
Proof.
  intros H0 H1. unfold targetScale. rewrite normalizedDist_cases. cbv zeta.
  now rewrite (ltb_not_nan_l _ _ H1), H1, H0.
Qed.

Lemma targetScale_high (hd : float) :
  (1 <=? (hd - 0.2) * 2) = true -> targetScale hd = 4.
Proof.
  intros H. unfold targetScale. rewrite normalizedDist_cases. cbv zeta.
  rewrite (leb_not_nan_r _ _ H), (leb_not_ltb _ _ H).
  reflexivity.
Qed.

(** * The claims *)

Section Classifier.

Variable hypot : float -> float -> float.

(** C1.  In a frame with exactly two detected hands the zoom latch goes
    from off to on if and only if the 2D inter-wrist distance is strictly
    below 0.2 and both hands are classified not open; it goes from on to
    off if and only if both hands are classified open.  In every other
    two-hand frame the latch therefore keeps its value: proximity alone
    neither arms nor disarms it. *)
Theorem C1_zoom_latch_transitions (s : TrackerRefs) (a b : Hand) :
  let s' := exec (predictWebcam hypot (mkResult [a; b])) s in
  let dx := Landmark.x (keypoint a 0) - Landmark.x (keypoint b 0) in
  let dy := Landmark.y (keypoint a 0) - Landmark.y (keypoint b 0) in
  let dist := Math.sqrt (dx * dx + dy * dy) in
  let bothClosed := isHandOpen hypot a = Normal false /\ isHandOpen hypot b = Normal false in
  let bothOpen := isHandOpen hypot a = Normal true /\ isHandOpen hypot b = Normal true in
  (isZoomActiveRef s = false ->
     (isZoomActiveRef s' = true <-> (dist <? 0.2) = true /\ bothClosed))
  /\ (isZoomActiveRef s = true -> (isZoomActiveRef s' = false <-> bothOpen))
  /\ (bothClosed \/ bothOpen \/ isZoomActiveRef s' = isZoomActiveRef s).
Proof.
  intros s' dx dy dist bothClosed bothOpen.
  subst s' bothClosed bothOpen. unfold exec.
  destruct (le_lt_dec 21 (length a)) as [Ha|Ha];
    [destruct (le_lt_dec 21 (length b)) as [Hb|Hb]|].
  - rewrite (predictWebcam_two hypot a b s Ha Hb).
    rewrite (isHandOpen_closed_form hypot a Ha), (isHandOpen_closed_form hypot b Hb).
    cbn [snd isZoomActiveRef]. unfold latchStep.
    change (wristDistance a b) with dist.
    change ZOOM_ACTIVATION_THRESHOLD with 0.2.
    destruct (isZoomActiveRef s), (handOpen hypot a), (handOpen hypot b),
             (dist <? 0.2); cbn [negb andb];
      (split; [|split]);
      try (intuition (discriminate || congruence));
      first [ left; split; reflexivity
            | right; left; split; reflexivity
            | right; right; reflexivity ].
  - rewrite (predictWebcam_two_throws hypot a b s (or_intror Hb)).
    rewrite (isHandOpen_short hypot b Hb). cbn [snd].
    (split; [|split]); [| |right; right; reflexivity];
      intros ->; intuition (discriminate || congruence).
  - rewrite (predictWebcam_two_throws hypot a b s (or_introl Ha)).
    rewrite (isHandOpen_short hypot a Ha). cbn [snd].
    (split; [|split]); [| |right; right; reflexivity];
      intros ->; intuition (discriminate || congruence).
Qed.

(** C3.  In a frame with exactly one detected hand, [isPinched] is true if
    and only if the 3D distance between thumb tip (keypoint 4) and index
    tip (keypoint 8) is strictly below 0.05; a distance equal to 0.05
    gives [isPinched = false]; and the mode is ROTATE exactly when
    [isPinched] is true, IDLE otherwise. *)
Theorem C3_pinch_threshold (s : TrackerRefs) (h : Hand) :
  well_formed h ->
  let hs := handStateRef (exec (predictWebcam hypot (mkResult [h])) s) in
  let dx := Landmark.x (keypoint h 4) - Landmark.x (keypoint h 8) in
  let dy := Landmark.y (keypoint h 4) - Landmark.y (keypoint h 8) in
  let dz := Landmark.z (keypoint h 4) - Landmark.z (keypoint h 8) in
  let d := Math.sqrt (dx * dx + dy * dy + dz * dz) in
  outcome (predictWebcam hypot (mkResult [h])) s = Normal tt
  /\ pinchDistance hs = d
  /\ (isPinched hs = true <-> (d <? 0.05) = true)
  /\ ((d =? 0.05) = true -> isPinched hs = false)
  /\ (mode hs = ROTATE <-> isPinched hs = true)
  /\ (mode hs = IDLE <-> isPinched hs = false).
Proof.
  intros Hwf hs dx dy dz d. unfold well_formed in Hwf.
  subst hs. unfold exec, outcome.
  rewrite predictWebcam_single by lia.
  cbn [fst snd handStateRef singleState pinchDistance isPinched mode].
  change (thumbIndexDistance h) with d. change PINCH_THRESHOLD with 0.05.
  repeat split; try tauto.
  - apply eqb_not_ltb.
  - destruct (d <? 0.05); congruence.
  - destruct (d <? 0.05); congruence.
  - destruct (d <? 0.05); congruence.
  - destruct (d <? 0.05); congruence.
Qed.

(** C4.  After a frame with exactly one detected hand the zoom latch is
    off, whatever it was before; in particular a one-hand frame that
    follows any two-hand frame clears it. *)
Theorem C4_one_hand_clears_latch (s : TrackerRefs) (h : Hand) :
  isZoomActiveRef (exec (predictWebcam hypot (mkResult [h])) s) = false
  /\ forall a b : Hand,
       isZoomActiveRef
         (exec (predictWebcam hypot (mkResult [h]))
            (exec (predictWebcam hypot (mkResult [a; b])) s)) = false.
Proof.
  assert (clears : forall r : TrackerRefs,
             isZoomActiveRef (exec (predictWebcam hypot (mkResult [h])) r) = false).
  { intros r. unfold exec, predictWebcam.
    frame_steps.
    destruct (deref h 4) as [thumb|]; [|reflexivity].
    destruct (deref h 8) as [index|]; [|reflexivity].
    match goal with
    | |- isZoomActiveRef (snd (updateHandState ?res ?m ?st)) = false =>
        exact (updateHandState_latch res m st)
    end. }
  split; [apply clears | intros a b; apply clears].
Qed.

(** C5.  A frame with no detected hand completes normally, replaces the
    emitted record by the neutral default (not detected, IDLE, pinch
    distance 1, hand distance 0, not pinched, position (0,0)) and resets
    the latch. *)
Theorem C5_no_hands_resets (s : TrackerRefs) :
  let s' := exec (predictWebcam hypot (mkResult [])) s in
  outcome (predictWebcam hypot (mkResult [])) s = Normal tt
  /\ handStateRef s' = INITIAL_HAND_STATE
  /\ isDetected (handStateRef s') = false
  /\ mode (handStateRef s') = IDLE
  /\ pinchDistance (handStateRef s') = 1
  /\ handDistance (handStateRef s') = 0
  /\ isPinched (handStateRef s') = false
  /\ position (handStateRef s') = Position.mk 0 0
  /\ isZoomActiveRef s' = false.
Proof. cbv zeta. repeat split. Qed.

(** C6.  Emitted positions follow x = (0.5 - rx) * 2, y = (ry - 0.5) * 2 on
    raw frame coordinates (rx, ry): raw (0.5, 0.5) gives (0, 0), raw (0, 0)
    gives (1, -1), raw (1, 1) gives (-1, 1).  In ZOOM mode (rx, ry) is the
    midpoint of the two wrists; in a one-hand frame, and in a two-hand
    frame left IDLE, it is the midpoint of thumb tip and wrist of the
    first hand.  The default position written when no hand is detected is
    the image of the frame centre. *)
Theorem C6_position_mapping (s : TrackerRefs) (a b h : Hand) :
  well_formed a -> well_formed b -> well_formed h ->
  let map rx ry := Position.mk ((0.5 - rx) * 2) ((ry - 0.5) * 2) in
  let wristMid :=
    map ((Landmark.x (keypoint a 0) + Landmark.x (keypoint b 0)) / 2)
        ((Landmark.y (keypoint a 0) + Landmark.y (keypoint b 0)) / 2) in
  let thumbMid (g : Hand) :=
    map ((Landmark.x (keypoint g 4) + Landmark.x (keypoint g 0)) / 2)
        ((Landmark.y (keypoint g 4) + Landmark.y (keypoint g 0)) / 2) in
  let two := handStateRef (exec (predictWebcam hypot (mkResult [a; b])) s) in
  let one := handStateRef (exec (predictWebcam hypot (mkResult [h])) s) in
  let none := handStateRef (exec (predictWebcam hypot (mkResult [])) s) in
  (mode two = ZOOM -> position two = wristMid)
  /\ (mode two <> ZOOM -> position two = thumbMid a)
  /\ position one = thumbMid h
  /\ position none = map 0.5 0.5
  /\ map 0.5 0.5 = Position.mk 0 0
  /\ map 0 0 = Position.mk 1 (-1)
  /\ map 1 1 = Position.mk (-1) 1.
Proof.
  intros Ha Hb Hh map wristMid thumbMid two one none.
  unfold well_formed in Ha, Hb, Hh. subst two one none. unfold exec.
  rewrite predictWebcam_two, predictWebcam_single by lia.
  cbn [snd handStateRef].
  destruct (latchStep hypot (isZoomActiveRef s) a b);
    cbn [mode position zoomState singleState];
    repeat split; try reflexivity; try congruence.
Qed.

(** C7.  On a hand with its 21 keypoints [isHandOpen] counts a finger
    (index, middle, ring, pinky) exactly when the 2D wrist-to-tip distance
    strictly exceeds the 2D distance from the wrist to the joint before
    the tip, and answers open exactly when at least 3 of the 4 count. *)
Theorem C7_isHandOpen_counts_fingers (h : Hand) :
  well_formed h ->
  let d k := hypot (Landmark.x (keypoint h k) - Landmark.x (keypoint h 0))
                   (Landmark.y (keypoint h k) - Landmark.y (keypoint h 0)) in
  let count :=
    length (filter (fun tp : nat * nat => d (snd tp) <? d (fst tp))
                   [(8, 6); (12, 10); (16, 14); (20, 18)]%nat) in
  isHandOpen hypot h = Normal (3 <=? count)%nat
  /\ (isHandOpen hypot h = Normal true <-> (3 <= count)%nat).
Proof.
  intros Hwf d count. unfold well_formed in Hwf.
  rewrite isHandOpen_closed_form by lia.
  change (handOpen hypot h) with (3 <=? count)%nat.
  split; [reflexivity|].
  split.
  - intros H. apply Nat.leb_le. congruence.
  - intros H. apply Nat.leb_le in H. now rewrite H.
Qed.

(** C8.  The classification is a function of the frame's keypoints and of
    the latch bit alone, and the same one-hand keypoints fed on two
    consecutive frames give the same emitted record (and the same refs)
    both times. *)
Theorem C8_deterministic (r : HandLandmarkerResult) (h : Hand)
    (s1 s2 : TrackerRefs) :
  Forall well_formed (landmarks r) -> well_formed h ->
  (isZoomActiveRef s1 = isZoomActiveRef s2 ->
   predictWebcam hypot r s1 = predictWebcam hypot r s2)
  /\ (let first := predictWebcam hypot (mkResult [h]) s1 in
      let second := predictWebcam hypot (mkResult [h]) (snd first) in
      fst first = Normal tt
      /\ fst second = Normal tt
      /\ handStateRef (snd second) = handStateRef (snd first)
      /\ isZoomActiveRef (snd second) = false
      /\ isZoomActiveRef (snd first) = false).
Proof.
  intros Hr Hh. unfold well_formed in Hh. split.
  - intros Hlatch. destruct r as [hands]. cbn [landmarks] in Hr.
    destruct hands as [|a [|b [|c rest]]].
    + reflexivity.
    + inversion Hr as [|? ? Ha _]; subst. unfold well_formed in Ha.
      now rewrite !predictWebcam_single by lia.
    + inversion Hr as [|? ? Ha Hr']; subst.
      inversion Hr' as [|? ? Hb _]; subst. unfold well_formed in Ha, Hb.
      rewrite !predictWebcam_two by lia. now rewrite Hlatch.
    + inversion Hr as [|? ? Ha _]; subst. unfold well_formed in Ha.
      now rewrite !predictWebcam_first by (reflexivity || lia).
  - cbv zeta. rewrite !predictWebcam_single by lia. cbn. tauto.
Qed.

(** C10.  In a frame with exactly two detected hands that leaves the latch
    off, the emitted record has mode IDLE and hand distance 0, and its
    other fields come from the first hand by the one-hand formulas: pinch
    distance is the 3D thumb-index distance of hand 0, [isPinched] is that
    distance < 0.05, the position is the mapped thumb-wrist midpoint of
    hand 0, and [isDetected] is true. *)
Theorem C10_two_hands_idle (s : TrackerRefs) (a b : Hand) :
  well_formed a -> well_formed b ->
  let s' := exec (predictWebcam hypot (mkResult [a; b])) s in
  isZoomActiveRef s' = false ->
  let hs := handStateRef s' in
  let dx := Landmark.x (keypoint a 4) - Landmark.x (keypoint a 8) in
  let dy := Landmark.y (keypoint a 4) - Landmark.y (keypoint a 8) in
  let dz := Landmark.z (keypoint a 4) - Landmark.z (keypoint a 8) in
  let d := Math.sqrt (dx * dx + dy * dy + dz * dz) in
  let rawX := (Landmark.x (keypoint a 4) + Landmark.x (keypoint a 0)) / 2 in
  let rawY := (Landmark.y (keypoint a 4) + Landmark.y (keypoint a 0)) / 2 in
  mode hs = IDLE
  /\ handDistance hs = 0
  /\ pinchDistance hs = d
  /\ isPinched hs = (d <? 0.05)
  /\ position hs = Position.mk ((0.5 - rawX) * 2) ((rawY - 0.5) * 2)
  /\ isDetected hs = true.
Proof.
  intros Ha Hb s'. unfold well_formed in Ha, Hb. subst s'. unfold exec.
  rewrite predictWebcam_two by lia. cbn [snd isZoomActiveRef handStateRef].
  intros ->. cbv zeta. repeat split.
Qed.

End Classifier.

Section Animator.

Variables sin cos : float -> float.
Variable lerp : float -> float -> float -> float.

Lemma useFrame_currentScale_zoom (hand : HandState) (time delta : float)
    (refs : SceneRefs) :
  isDetected hand = true -> mode hand = ZOOM ->
  currentScale (useFrame sin cos lerp hand time delta refs) =
  lerp (currentScale refs) (targetScale (handDistance hand)) lerpFactor.
Proof.
  intros Hd Hm. unfold useFrame. rewrite Hd, Hm. reflexivity.
Qed.

(** C2, amended.  In ZOOM mode the animator's target scale equals
    0.8 + clamp01((handDistance - 0.2) * 2) * 3.2.  With
    v = (handDistance - 0.2) * 2 the scale is 0.8 when v <= 0,
    0.8 + v * 3.2 when 0 < v < 1 and 4.0 when v >= 1: the linear stretch
    ends where v reaches 1, at handDistance 0.7, and the map is clamped at
    both ends.  handDistance 0.2 gives 0.8, 0.8 gives 4.0, 0.05 clamps to
    0.8 and 1.0 clamps to 4.0; 0.7 and 0.75 already give 4.0. *)
Theorem C2_zoom_target_scale (hand : HandState) (time delta : float)
    (refs : SceneRefs) :
  isDetected hand = true -> mode hand = ZOOM ->
  let v := (handDistance hand - 0.2) * 2 in
  let target := 0.8 + Math.max [0; Math.min [1; v]] * 3.2 in
  currentScale (useFrame sin cos lerp hand time delta refs)
    = lerp (currentScale refs) target 0.1
  /\ ((v <=? 0) = true -> target = 0.8)
  /\ ((0 <? v) = true -> (v <? 1) = true -> target = 0.8 + v * 3.2)
  /\ ((1 <=? v) = true -> target = 4)
  /\ targetScale 0.2 = 0.8
  /\ targetScale 0.8 = 4
  /\ targetScale 0.05 = 0.8
  /\ targetScale 1 = 4
  /\ targetScale 0.7 = 4
  /\ targetScale 0.75 = 4.
Proof.
  intros Hd Hm v target.
  change target with (targetScale (handDistance hand)).
  split; [exact (useFrame_currentScale_zoom hand time delta refs Hd Hm)|].
  split; [exact (targetScale_low (handDistance hand))|].
  split; [exact (targetScale_linear (handDistance hand))|].
  split; [exact (targetScale_high (handDistance hand))|].
  repeat split; vm_compute; reflexivity.
Qed.

(** C9.  On an animator frame where a hand is detected and the mode is not
    ROTATE, the object's pitch (rotation.x) moves toward zero by one lerp
    step of factor 0.05 and its yaw (rotation.y) stays as it was. *)
Theorem C9_zoom_relaxes_pitch (hand : HandState) (time delta : float)
    (refs : SceneRefs) (group : Object3D) :
  isDetected hand = true -> mode hand <> ROTATE ->
  groupRef refs = Some group ->
  exists group' : Object3D,
    groupRef (useFrame sin cos lerp hand time delta refs) = Some group'
    /\ Euler.x (rotation group') = lerp (Euler.x (rotation group)) 0 0.05
    /\ Euler.y (rotation group') = Euler.y (rotation group).
Proof.
  intros Hd Hm Hg. unfold useFrame. rewrite Hd.
  replace (Mode_eqb (mode hand) ROTATE) with false
    by (destruct (mode hand); try reflexivity; congruence).
  cbn [negb andb].
  destruct (Mode_eqb (mode hand) ZOOM);
    cbn [map_groupRef map_gridRef map_atmosphereRef map_ring1Ref map_ring2Ref
         map_particlesRef set_currentScale groupRef currentScale];
    rewrite Hg; cbn [option_map]; eexists; repeat split.
Qed.

End Animator.

(** * Further properties of the tracker *)

Section TrackerFurther.

Variable hypot : float -> float -> float.

Lemma predictWebcam_first_throws (h : Hand) (rest : list Hand) (s : TrackerRefs) :
  (length (h :: rest) =? 2)%nat = false -> (length h < 9)%nat ->
  predictWebcam hypot (mkResult (h :: rest)) s
  = (TypeError, mkRefs false (handStateRef s)).
Proof.
  intros Hn Hlen. unfold predictWebcam. cbn [landmarks]. rewrite Hn.
  change (0 <? length (h :: rest))%nat with true.
  cbn [bind ret Eff_Monad lift deref nth_error set_isZoomActiveRef modify].
  rewrite (deref_short h 8) by lia.
  destruct (deref h 4); reflexivity.
Qed.

(** One detection cycle in closed form, for every result and every refs. *)
Lemma predictWebcam_frameEffect (r : HandLandmarkerResult) (s : TrackerRefs) :
  predictWebcam hypot r s = frameEffect hypot r s.
Proof.
  destruct r as [hands]. unfold frameEffect. cbn [landmarks].
  destruct hands as [|a [|b [|c rest]]].
  - reflexivity.
  - destruct (9 <=? length a)%nat eqn:E.
    + apply Nat.leb_le in E. apply predictWebcam_first; [reflexivity|lia].
    + apply Nat.leb_gt in E. now apply predictWebcam_first_throws.
  - destruct (21 <=? length a)%nat eqn:Ea; [destruct (21 <=? length b)%nat eqn:Eb|];
      cbn [andb].
    + apply Nat.leb_le in Ea, Eb. now apply predictWebcam_two.
    + apply Nat.leb_gt in Eb. apply predictWebcam_two_throws. now right.
    + apply Nat.leb_gt in Ea. apply predictWebcam_two_throws. now left.
  - destruct (9 <=? length a)%nat eqn:E.
    + apply Nat.leb_le in E. apply predictWebcam_first; [reflexivity|lia].
    + apply Nat.leb_gt in E. now apply predictWebcam_first_throws.
Qed.

(** X1.  A detection cycle returns normally exactly when the frame has no
    hand, or has two hands of at least 21 keypoints each, or has any other
    number of hands with at least 9 keypoints in the first; otherwise it
    throws a TypeError. *)
Theorem X1_frame_completes_iff (r : HandLandmarkerResult) (s : TrackerRefs) :
  (outcome (predictWebcam hypot r) s = Normal tt <-> enoughKeypoints r = true)
  /\ (outcome (predictWebcam hypot r) s = TypeError <-> enoughKeypoints r = false).
Proof.
  unfold outcome. rewrite predictWebcam_frameEffect.
  unfold frameEffect, enoughKeypoints.
  destruct (landmarks r) as [|a [|b [|c rest]]]; cbn [fst].
  - split; split; congruence.
  - destruct (9 <=? length a)%nat; cbn [fst]; split; split; congruence.
  - destruct ((21 <=? length a)%nat && (21 <=? length b)%nat); cbn [fst];
      split; split; congruence.
  - destruct (9 <=? length a)%nat; cbn [fst]; split; split; congruence.
Qed.

(** X2.  A detection cycle that throws never touches the emitted record:
    [handStateRef] keeps the record of the last completed cycle.  With two
    hands the latch is left as it was too; with any other number of hands
    it has already been cleared. *)
Theorem X2_throw_keeps_record (r : HandLandmarkerResult) (s : TrackerRefs) :
  outcome (predictWebcam hypot r) s = TypeError ->
  let s' := exec (predictWebcam hypot r) s in
  handStateRef s' = handStateRef s
  /\ (length (landmarks r) = 2%nat -> s' = s)
  /\ (length (landmarks r) <> 2%nat -> isZoomActiveRef s' = false).
Proof.
  unfold outcome, exec. rewrite predictWebcam_frameEffect. unfold frameEffect.
  destruct (landmarks r) as [|a [|b [|c rest]]]; cbn [fst snd length].
  - discriminate.
  - destruct (9 <=? length a)%nat; cbn [fst snd]; [discriminate|].
    intros _. repeat split. intros H. discriminate H.
  - destruct ((21 <=? length a)%nat && (21 <=? length b)%nat); cbn [fst snd];
      [discriminate|].
    intros _. repeat split. intros H. now contradiction H.
  - destruct (9 <=? length a)%nat; cbn [fst snd]; [discriminate|].
    intros _. repeat split. intros H. discriminate H.
Qed.

(** X3.  After a detection cycle that returned, the emitted mode is ZOOM
    exactly when the latch is on, the record says "not detected" exactly
    when the frame had no hand, and ROTATE is emitted only with the latch
    off. *)
Theorem X3_mode_follows_latch (r : HandLandmarkerResult) (s : TrackerRefs) :
  outcome (predictWebcam hypot r) s = Normal tt ->
  let s' := exec (predictWebcam hypot r) s in
  (mode (handStateRef s') = ZOOM <-> isZoomActiveRef s' = true)
  /\ (isDetected (handStateRef s') = false <-> landmarks r = [])
  /\ (mode (handStateRef s') = ROTATE -> isZoomActiveRef s' = false).
Proof.
  unfold outcome, exec. rewrite predictWebcam_frameEffect. unfold frameEffect.
  destruct (landmarks r) as [|a [|b [|c rest]]]; cbn [fst snd].
  - intros _. cbn. repeat split; congruence.
  - destruct (9 <=? length a)%nat; cbn [fst snd]; [|discriminate].
    intros _. cbn [handStateRef isZoomActiveRef singleState mode isDetected].
    destruct (thumbIndexDistance a <? PINCH_THRESHOLD); repeat split; congruence.
  - destruct ((21 <=? length a)%nat && (21 <=? length b)%nat); cbn [fst snd];
      [|discriminate].
    intros _. cbn [handStateRef isZoomActiveRef].
    destruct (latchStep hypot (isZoomActiveRef s) a b);
      cbn [zoomState singleState mode isDetected]; repeat split; congruence.
  - destruct (9 <=? length a)%nat; cbn [fst snd]; [|discriminate].
    intros _. cbn [handStateRef isZoomActiveRef singleState mode isDetected].
    destruct (thumbIndexDistance a <? PINCH_THRESHOLD); repeat split; congruence.
Qed.

(** X4.  Whatever the frame, and whether the cycle returns or throws, the
    latch can be on afterwards only if the frame had exactly two hands:
    zero, one, three or more hands all clear it. *)
Theorem X4_latch_needs_two_hands (r : HandLandmarkerResult) (s : TrackerRefs) :
  length (landmarks r) = 2%nat
  \/ isZoomActiveRef (exec (predictWebcam hypot r) s) = false.
Proof.
  unfold exec. rewrite predictWebcam_frameEffect. unfold frameEffect.
  destruct (landmarks r) as [|a [|b [|c rest]]]; cbn [length].
  - now right.
  - right. now destruct (9 <=? length a)%nat.
  - now left.
  - right. now destruct (9 <=? length a)%nat.
Qed.

(** X5.  Hands beyond the second are ignored: a frame with three or more
    hands is processed exactly like the frame that holds its first hand
    alone (one-hand branch, latch cleared). *)
Theorem X5_extra_hands_ignored (h b c : Hand) (rest : list Hand) (s : TrackerRefs) :
  predictWebcam hypot (mkResult (h :: b :: c :: rest)) s
  = predictWebcam hypot (mkResult [h]) s.
Proof.
  rewrite !predictWebcam_frameEffect. reflexivity.
Qed.

End TrackerFurther.

(** ** Comparing values that are not NaN *)

Lemma SFcompare_total (f g : spec_float) :
  f <> S754_nan -> g <> S754_nan -> SFcompare f g <> None.
Proof.
  destruct f as [s|s| |s m e], g as [s'|s'| |s' m' e']; cbn; congruence.
Qed.

Lemma ltb_false_leb (x y : float) :
  is_nan x = false -> is_nan y = false -> (x <? y) = false -> (y <=? x) = true.
Proof.
  intros Hx Hy. apply is_nan_false_iff in Hx, Hy.
  rewrite FloatAxioms.ltb_spec, FloatAxioms.leb_spec. unfold SFltb, SFleb.
  rewrite (SFcompare_antisym (Prim2SF x) (Prim2SF y)).
  pose proof (SFcompare_total _ _ Hx Hy) as Htot.
  destruct (SFcompare (Prim2SF x) (Prim2SF y)) as [[]|]; cbn; congruence.
Qed.

Lemma ltb_leb (x y : float) : (x <? y) = true -> (x <=? y) = true.
Proof.
  rewrite FloatAxioms.ltb_spec, FloatAxioms.leb_spec. unfold SFltb, SFleb.
  destruct (SFcompare (Prim2SF x) (Prim2SF y)) as [[]|]; congruence.
Qed.

Lemma leb_nan_r (x y : float) : is_nan y = true -> (x <=? y) = false.
Proof.
  intros Hy. destruct (x <=? y) eqn:E; [|reflexivity].
  apply leb_not_nan_r in E. congruence.
Qed.

(** * Further properties of the detection loop *)

Section LoopFurther.

Variable hypot : float -> float -> float.

Lemma detectionLoop_cons (r : HandLandmarkerResult)
    (later : list HandLandmarkerResult) (s : TrackerRefs) :
  detectionLoop hypot (r :: later) s =
  match frameEffect hypot r s with
  | (Normal _, s') => detectionLoop hypot later s'
  | (TypeError, s') => (TypeError, s')
  end.
Proof.
  cbn [detectionLoop bind Eff_Monad]. now rewrite predictWebcam_frameEffect.
Qed.

(** A property of the refs that every admitted frame preserves holds after
    the loop, wherever it stops. *)
Lemma detectionLoop_preserves (P : TrackerRefs -> Prop)
    (Q : HandLandmarkerResult -> Prop) :
  (forall r s, Q r -> P s -> P (snd (frameEffect hypot r s))) ->
  forall frames s, Forall Q frames -> P s ->
  P (exec (detectionLoop hypot frames) s).
Proof.
  intros Hstep. induction frames as [|r later IH]; intros s Hq Hp.
  - exact Hp.
  - inversion Hq as [|? ? Hr Hlater]; subst.
    unfold exec. rewrite detectionLoop_cons.
    specialize (Hstep r s Hr Hp).
    destruct (frameEffect hypot r s) as [[[]|] s1]; cbn [snd] in *.
    + now apply IH.
    + exact Hstep.
Qed.

Lemma coherent_INITIAL : coherent INITIAL_HAND_STATE.
Proof.
  unfold coherent. cbn. repeat split; congruence.
Qed.

Lemma coherent_zoomState (a b : Hand) : coherent (zoomState a b).
Proof.
  unfold coherent. cbn. repeat split; congruence.
Qed.

Lemma coherent_singleState (h : Hand) :
  coherent
    (singleState h (if thumbIndexDistance h <? PINCH_THRESHOLD then ROTATE else IDLE)).
Proof.
  unfold coherent. cbn [singleState isPinched pinchDistance mode handDistance isDetected].
  destruct (thumbIndexDistance h <? PINCH_THRESHOLD); repeat split; congruence.
Qed.

Lemma coherent_singleState_IDLE (h : Hand) : coherent (singleState h IDLE).
Proof.
  unfold coherent. cbn [singleState isPinched pinchDistance mode handDistance isDetected].
  repeat split; congruence.
Qed.

Lemma frameEffect_coherent (r : HandLandmarkerResult) (s : TrackerRefs) :
  coherent (handStateRef s) -> coherent (handStateRef (snd (frameEffect hypot r s))).
Proof.
  intros Hs. unfold frameEffect.
  destruct (landmarks r) as [|a [|b [|c rest]]]; cbn [snd handStateRef].
  - apply coherent_INITIAL.
  - destruct (9 <=? length a)%nat; cbn [snd handStateRef];
      [apply coherent_singleState | exact Hs].
  - destruct ((21 <=? length a)%nat && (21 <=? length b)%nat); cbn [snd handStateRef];
      [|exact Hs].
    destruct (latchStep hypot (isZoomActiveRef s) a b);
      [apply coherent_zoomState | apply coherent_singleState_IDLE].
  - destruct (9 <=? length a)%nat; cbn [snd handStateRef];
      [apply coherent_singleState | exact Hs].
Qed.

(** X6.  Whatever frames the landmarker delivers after mount, complete or
    truncated, the record in [handStateRef] always has [isPinched] equal
    to [pinchDistance < 0.05]; ROTATE only with [isPinched]; ZOOM only with
    [isPinched = false] and the default pinch distance 1; a hand distance
    other than 0 only in ZOOM; and "not detected" only as the neutral
    default record. *)
Theorem X6_emitted_record_coherent (frames : list HandLandmarkerResult) :
  let hs := handStateRef (exec (detectionLoop hypot frames) idleRefs) in
  isPinched hs = (pinchDistance hs <? 0.05)
  /\ (mode hs = ROTATE -> isPinched hs = true)
  /\ (mode hs = ZOOM -> isPinched hs = false /\ pinchDistance hs = 1)
  /\ (mode hs <> ZOOM -> handDistance hs = 0)
  /\ (isDetected hs = false -> hs = INITIAL_HAND_STATE).
Proof.
  cbv zeta.
  apply (detectionLoop_preserves (fun s => coherent (handStateRef s)) (fun _ => True)).
  - intros r s _. apply frameEffect_coherent.
  - now apply Forall_forall.
  - apply coherent_INITIAL.
Qed.

Lemma frameEffect_holding (r : HandLandmarkerResult) (s : TrackerRefs) :
  isZoomActiveRef s = true -> holdingFrame hypot r = true ->
  exists a b, landmarks r = [a; b]
              /\ frameEffect hypot r s = (Normal tt, mkRefs true (zoomState a b)).
Proof.
  intros Hs Hr. unfold holdingFrame, frameEffect in *.
  destruct (landmarks r) as [|a [|b [|c rest]]]; try discriminate Hr.
  exists a, b. split; [reflexivity|].
  apply andb_prop in Hr. destruct Hr as [Hwf Hopen].
  unfold latchStep. now rewrite Hwf, Hs, Hopen.
Qed.

(** X7.  Once the latch is on, it stays on through any run of frames that
    each show two complete hands not both open: every cycle returns, the
    emitted mode is ZOOM no matter how far apart or how close the wrists
    are, and the emitted hand distance is the wrist distance of the latest
    frame. *)
Theorem X7_zoom_holds (frames : list HandLandmarkerResult) (s : TrackerRefs) :
  isZoomActiveRef s = true ->
  Forall (fun r => holdingFrame hypot r = true) frames ->
  let s' := exec (detectionLoop hypot frames) s in
  outcome (detectionLoop hypot frames) s = Normal tt
  /\ isZoomActiveRef s' = true
  /\ (forall a b, landmarks (last frames (mkResult [])) = [a; b] ->
        mode (handStateRef s') = ZOOM
        /\ handDistance (handStateRef s') = wristDistance a b).
Proof.
  revert s. induction frames as [|r later IH]; intros s Hs Hall; cbv zeta.
  - split; [reflexivity|]. split; [exact Hs|]. intros a b H. discriminate H.
  - inversion Hall as [|? ? Hr Hlater]; subst.
    destruct (frameEffect_holding r s Hs Hr) as (a & b & Hab & Heff).
    unfold outcome, exec. rewrite detectionLoop_cons, Heff.
    specialize (IH (mkRefs true (zoomState a b)) eq_refl Hlater).
    cbv zeta in IH. unfold outcome, exec in IH.
    destruct IH as (Hout & Hlatch & Hlast).
    split; [exact Hout|]. split; [exact Hlatch|].
    intros a' b' Hl.
    destruct later as [|r' later'].
    + cbn in Hl |- *. rewrite Hab in Hl. injection Hl as <- <-. split; reflexivity.
    + apply Hlast. exact Hl.
Qed.

Lemma frameEffect_not_arming (r : HandLandmarkerResult) (s : TrackerRefs) :
  armingFrame hypot r = false ->
  isZoomActiveRef s = false /\ mode (handStateRef s) <> ZOOM ->
  isZoomActiveRef (snd (frameEffect hypot r s)) = false
  /\ mode (handStateRef (snd (frameEffect hypot r s))) <> ZOOM.
Proof.
  intros Hr (Hs & Hm). unfold armingFrame, frameEffect in *.
  destruct (landmarks r) as [|a [|b [|c rest]]]; cbn [snd].
  - split; [reflexivity|discriminate].
  - destruct (9 <=? length a)%nat;
      cbn [snd isZoomActiveRef handStateRef singleState mode]; [|now split].
    split; [reflexivity|].
    destruct (thumbIndexDistance a <? PINCH_THRESHOLD); discriminate.
  - destruct ((21 <=? length a)%nat && (21 <=? length b)%nat); cbn [snd];
      [|now split].
    unfold latchStep. rewrite Hs. cbn [andb] in Hr. rewrite Hr.
    cbn [isZoomActiveRef handStateRef singleState mode].
    split; [reflexivity|discriminate].
  - destruct (9 <=? length a)%nat;
      cbn [snd isZoomActiveRef handStateRef singleState mode]; [|now split].
    split; [reflexivity|].
    destruct (thumbIndexDistance a <? PINCH_THRESHOLD); discriminate.
Qed.

(** X8.  The latch never turns on by itself: from refs with the latch off
    and a mode other than ZOOM, any run of frames, complete or truncated,
    none of which shows two complete fists with wrists closer than 0.2,
    leaves the latch off and never emits ZOOM. *)
Theorem X8_no_arming_without_fists (frames : list HandLandmarkerResult)
    (s : TrackerRefs) :
  isZoomActiveRef s = false -> mode (handStateRef s) <> ZOOM ->
  Forall (fun r => armingFrame hypot r = false) frames ->
  let s' := exec (detectionLoop hypot frames) s in
  isZoomActiveRef s' = false /\ mode (handStateRef s') <> ZOOM.
Proof.
  intros Hs Hm Hall. cbv zeta.
  apply (detectionLoop_preserves
           (fun s => isZoomActiveRef s = false /\ mode (handStateRef s) <> ZOOM)
           (fun r => armingFrame hypot r = false)).
  - intros r s0 Hr Hp. now apply frameEffect_not_arming.
  - exact Hall.
  - now split.
Qed.

(** X9.  [isHandOpen] reads nothing but the x and y of the wrist and of the
    PIP joint and tip of the four fingers: two complete hands that agree
    there get the same verdict, whatever their thumbs, their other joints
    and their depths. *)
Theorem X9_isHandOpen_reads (h h' : Hand) :
  well_formed h -> well_formed h' ->
  Forall (sameXY h h') readByIsHandOpen ->
  isHandOpen hypot h = isHandOpen hypot h'.
Proof.
  intros Hh Hh' Hsame. unfold well_formed in Hh, Hh'.
  rewrite !isHandOpen_closed_form by lia. f_equal.
  unfold readByIsHandOpen in Hsame.
  repeat match goal with
         | H : Forall _ (_ :: _) |- _ => inversion H; clear H; subst
         end.
  unfold sameXY in *.
  repeat match goal with
         | H : _ /\ _ |- _ => destruct H
         end.
  unfold handOpen, extendedFingers, fingers, extended, wristTo.
  cbn [filter fst snd].
  repeat match goal with
         | H : Landmark.x _ = _ |- _ => rewrite H; clear H
         | H : Landmark.y _ = _ |- _ => rewrite H; clear H
         end.
  reflexivity.
Qed.

End LoopFurther.

(** * Further properties of the on-canvas hint *)

(** X10.  While two hands are visible and the latch is off after its
    update, the overlay always prints a hint when the wrist distance is a
    number: "move the hands closer" when the distance is at least 0.2,
    otherwise "make fists".  When the distance is NaN the only hint left is
    "make fists", and two fists get none. *)
Theorem X10_waiting_hint (dist : float) (latch hand1Open hand2Open : bool) :
  let bothHandsOpen := hand1Open && hand2Open in
  let bothHandsClosed := negb hand1Open && negb hand2Open in
  let latch' :=
    if negb latch
    then (if (dist <? ZOOM_ACTIVATION_THRESHOLD) && bothHandsClosed then true else latch)
    else (if bothHandsOpen then false else latch) in
  latch' = false ->
  (is_nan dist = false ->
     truthy (statusText dist bothHandsClosed) = true
     /\ ((0.2 <=? dist) = true ->
           statusText dist bothHandsClosed = "靠近双手"%string)
     /\ ((dist <? 0.2) = true ->
           statusText dist bothHandsClosed = "握拳以激活"%string))
  /\ (is_nan dist = true ->
        statusText dist bothHandsClosed
        = if bothHandsClosed then ""%string else "握拳以激活"%string).
Proof.
  intros bothHandsOpen bothHandsClosed latch' Hoff.
  subst bothHandsOpen bothHandsClosed latch'.
  unfold statusText. change ZOOM_ACTIVATION_THRESHOLD with 0.2 in *.
  split.
  - intros Hnan. destruct (dist <? 0.2) eqn:Hlt.
    + assert (Hle : (0.2 <=? dist) = false).
      { destruct (0.2 <=? dist) eqn:E; [|reflexivity].
        apply leb_not_ltb in E. congruence. }
      rewrite Hle.
      destruct latch, hand1Open, hand2Open; cbn in Hoff |- *;
        try discriminate Hoff; repeat split; try reflexivity;
        intros H; discriminate H.
    + rewrite (ltb_false_leb dist 0.2 Hnan eq_refl Hlt).
      repeat split; try reflexivity. intros H. discriminate H.
  - intros Hnan. rewrite (leb_nan_r 0.2 dist Hnan).
    destruct (negb hand1Open && negb hand2Open); reflexivity.
Qed.

(** * Further properties of the scene animator *)

Section AnimatorFurther.

Variables sin cos : float -> float.
Variable lerp : float -> float -> float -> float.

Lemma useFrame_currentScale (hand : HandState) (time delta : float)
    (refs : SceneRefs) :
  currentScale (useFrame sin cos lerp hand time delta refs) =
  if isDetected hand && Mode_eqb (mode hand) ZOOM
  then lerp (currentScale refs) (targetScale (handDistance hand)) lerpFactor
  else currentScale refs.
Proof.
  unfold useFrame. destruct (isDetected hand), (mode hand); reflexivity.
Qed.

Lemma useFrame_currentRotation (hand : HandState) (time delta : float)
    (refs : SceneRefs) :
  currentRotation (useFrame sin cos lerp hand time delta refs) =
  if isDetected hand && Mode_eqb (mode hand) ROTATE
  then Position.mk
         (lerp (Position.x (currentRotation refs))
               (Position.y (position hand) * 2.5) lerpFactor)
         (lerp (Position.y (currentRotation refs))
               (Position.x (position hand) * 2.5) lerpFactor)
  else currentRotation refs.
Proof.
  unfold useFrame. destruct (isDetected hand), (mode hand); reflexivity.
Qed.

Lemma useFrame_groupRef (hand : HandState) (time delta : float)
    (refs : SceneRefs) :
  groupRef (useFrame sin cos lerp hand time delta refs) =
  option_map
    (fun g =>
       let after := useFrame sin cos lerp hand time delta refs in
       {| rotation :=
            if isDetected hand
            then if Mode_eqb (mode hand) ROTATE
                 then Euler.mk (Position.x (currentRotation after))
                               (Position.y (currentRotation after))
                               (Euler.z (rotation g))
                 else Euler.mk (lerp (Euler.x (rotation g)) 0 0.05)
                               (Euler.y (rotation g)) (Euler.z (rotation g))
            else Euler.mk (sin (time * 0.1) * 0.05)
                          (Euler.y (rotation g) + delta * 0.05)
                          (Euler.z (rotation g));
          scale := Vector3.mk (currentScale after) (currentScale after)
                              (currentScale after) |})
    (groupRef refs).
Proof.
  cbv zeta. rewrite useFrame_currentRotation, useFrame_currentScale.
  unfold useFrame. destruct refs as [[g|] ? ? ? ? ? cr cs];
    destruct (isDetected hand), (mode hand); reflexivity.
Qed.

(** X11.  On a frame in ROTATE mode the group takes the smoothed rotation
    kept in [currentRotation]: pitch moves one lerp step of factor 0.1
    toward position.y * 2.5 and yaw toward position.x * 2.5, both starting
    from the remembered [currentRotation], not from the rotation the group
    had (idle drift or pitch relaxation in between is discarded). *)
Theorem X11_rotate_uses_remembered_rotation (hand : HandState)
    (time delta : float) (refs : SceneRefs) (group : Object3D) :
  isDetected hand = true -> mode hand = ROTATE ->
  groupRef refs = Some group ->
  let after := useFrame sin cos lerp hand time delta refs in
  let pitch := lerp (Position.x (currentRotation refs))
                    (Position.y (position hand) * 2.5) 0.1 in
  let yaw := lerp (Position.y (currentRotation refs))
                  (Position.x (position hand) * 2.5) 0.1 in
  currentRotation after = Position.mk pitch yaw
  /\ exists group' : Object3D,
       groupRef after = Some group'
       /\ Euler.x (rotation group') = pitch
       /\ Euler.y (rotation group') = yaw.
Proof.
  intros Hd Hm Hg after pitch yaw. subst after.
  rewrite useFrame_groupRef, Hg. cbn [option_map].
  rewrite !useFrame_currentRotation, Hd, Hm.
  cbn [andb Mode_eqb]. split; [reflexivity|].
  eexists. split; [reflexivity|]. split; reflexivity.
Qed.

(** X12.  On a frame whose record says "not detected" the group drifts:
    yaw grows by delta * 0.05 and pitch is set to sin(time * 0.1) * 0.05,
    whatever mode the record carries, and the remembered rotation and
    scale are left alone. *)
Theorem X12_idle_drift (hand : HandState) (time delta : float)
    (refs : SceneRefs) (group : Object3D) :
  isDetected hand = false -> groupRef refs = Some group ->
  let after := useFrame sin cos lerp hand time delta refs in
  currentRotation after = currentRotation refs
  /\ currentScale after = currentScale refs
  /\ exists group' : Object3D,
       groupRef after = Some group'
       /\ Euler.y (rotation group') = Euler.y (rotation group) + delta * 0.05
       /\ Euler.x (rotation group') = sin (time * 0.1) * 0.05.
Proof.
  intros Hd Hg after. subst after.
  rewrite useFrame_groupRef, Hg. cbn [option_map].
  rewrite !useFrame_currentRotation, !useFrame_currentScale, Hd.
  cbn [andb]. split; [reflexivity|]. split; [reflexivity|].
  eexists. split; [reflexivity|]. split; reflexivity.
Qed.

(** X13.  Every frame writes the remembered scale to all three axes of a
    mounted group, so the group is always scaled uniformly; the callback
    never touches the group's roll (rotation.z), and it never mounts or
    unmounts a ref. *)
Theorem X13_uniform_scale (hand : HandState) (time delta : float)
    (refs : SceneRefs) :
  let after := useFrame sin cos lerp hand time delta refs in
  (forall group, groupRef refs = Some group ->
     exists group' : Object3D,
       groupRef after = Some group'
       /\ scale group'
          = Vector3.mk (currentScale after) (currentScale after) (currentScale after)
       /\ Euler.z (rotation group') = Euler.z (rotation group))
  /\ (groupRef refs = None -> groupRef after = None)
  /\ (gridRef refs = None -> gridRef after = None)
  /\ (atmosphereRef refs = None -> atmosphereRef after = None)
  /\ (ring1Ref refs = None -> ring1Ref after = None)
  /\ (ring2Ref refs = None -> ring2Ref after = None)
  /\ (particlesRef refs = None -> particlesRef after = None).
Proof.
  cbv zeta. split.
  - intros group Hg. rewrite useFrame_groupRef, Hg. cbn [option_map].
    eexists. split; [reflexivity|]. split; [reflexivity|].
    cbn [rotation]. destruct (isDetected hand); [destruct (Mode_eqb (mode hand) ROTATE)|];
      reflexivity.
  - unfold useFrame. destruct refs as [g gr at_ r1 r2 pa cr cs].
    cbn [groupRef gridRef atmosphereRef ring1Ref ring2Ref particlesRef].
    repeat split; intros ->; destruct (isDetected hand), (mode hand); reflexivity.
Qed.

Lemma renderLoop_cons (t : Tick) (ticks : list Tick) (refs : SceneRefs) :
  renderLoop sin cos lerp (t :: ticks) refs =
  renderLoop sin cos lerp ticks
    (useFrame sin cos lerp (tickHand t) (tickTime t) (tickDelta t) refs).
Proof. reflexivity. Qed.

(** X14.  The zoom level is remembered: through any run of rendered frames
    none of which is a detected ZOOM frame (hands lost, rotating, waiting),
    [currentScale] keeps its value; likewise [currentRotation] keeps its
    value through any run without a detected ROTATE frame. *)
Theorem X14_smoothing_state_persists (ticks : list Tick) (refs : SceneRefs) :
  (Forall (fun t => isDetected (tickHand t) && Mode_eqb (mode (tickHand t)) ZOOM = false)
          ticks ->
   currentScale (renderLoop sin cos lerp ticks refs) = currentScale refs)
  /\ (Forall (fun t => isDetected (tickHand t) && Mode_eqb (mode (tickHand t)) ROTATE
                       = false) ticks ->
      currentRotation (renderLoop sin cos lerp ticks refs) = currentRotation refs).
Proof.
  split; revert refs; induction ticks as [|t ticks IH]; intros refs Hall;
    try reflexivity;
    inversion Hall as [|? ? Ht Hrest]; subst;
    rewrite renderLoop_cons, (IH _ Hrest).
  - now rewrite useFrame_currentScale, Ht.
  - now rewrite useFrame_currentRotation, Ht.
Qed.

(** X15.  The decorative meshes never depend on the hand: for the same
    time and frame time, the grid, the atmosphere, both rings and the
    particle cloud end the frame identically under any two hand records. *)
Theorem X15_decoration_ignores_hand (hand hand' : HandState) (time delta : float)
    (refs : SceneRefs) :
  let after := useFrame sin cos lerp hand time delta refs in
  let after' := useFrame sin cos lerp hand' time delta refs in
  gridRef after = gridRef after'
  /\ atmosphereRef after = atmosphereRef after'
  /\ ring1Ref after = ring1Ref after'
  /\ ring2Ref after = ring2Ref after'
  /\ particlesRef after = particlesRef after'.
Proof.
  cbv zeta. unfold useFrame.
  destruct (isDetected hand), (mode hand), (isDetected hand'), (mode hand');
    repeat split; reflexivity.
Qed.

End AnimatorFurther.

(** X16.  The normalised distance of the ZOOM block is NaN exactly when
    (handDistance - 0.2) * 2 is NaN; otherwise it lies between 0 and 1,
    bounds included. *)
Theorem X16_normalizedDist_range (handDistance : float) :
  let v := (handDistance - 0.2) * 2 in
  is_nan (normalizedDist handDistance) = is_nan v
  /\ (is_nan v = false ->
        (0 <=? normalizedDist handDistance) = true
        /\ (normalizedDist handDistance <=? 1) = true).
Proof.
  intros v. rewrite normalizedDist_cases. fold v.
  destruct (is_nan v) eqn:Hnan.
  - split; [reflexivity|discriminate].
  - destruct (v <? 1) eqn:H1; [destruct (0 <? v) eqn:H0|].
    + split; [exact Hnan|]. intros _. split; now apply ltb_leb.
    + split; [reflexivity|]. intros _. split; reflexivity.
    + split; [reflexivity|]. intros _. split; reflexivity.
Qed.

(** * From the tracker to the animator *)

Section EndToEnd.

Variable hypot : float -> float -> float.
Variables sin cos : float -> float.
Variable lerp : float -> float -> float -> float.

(** X17.  Pinch to rotate, end to end: after a one-hand frame whose
    thumb-index distance is below 0.05, the next rendered frame turns a
    mounted group one lerp step of factor 0.1 toward pitch
    (rawY - 0.5) * 2 * 2.5 and yaw (0.5 - rawX) * 2 * 2.5, with
    (rawX, rawY) the midpoint of thumb tip and wrist, and leaves the zoom
    level alone. *)
Theorem X17_pinch_rotates (s : TrackerRefs) (h : Hand) (time delta : float)
    (refs : SceneRefs) (group : Object3D) :
  well_formed h -> (thumbIndexDistance h <? 0.05) = true ->
  groupRef refs = Some group ->
  let hs := handStateRef (exec (predictWebcam hypot (mkResult [h])) s) in
  let after := useFrame sin cos lerp hs time delta refs in
  let rawX := (Landmark.x (keypoint h 4) + Landmark.x (keypoint h 0)) / 2 in
  let rawY := (Landmark.y (keypoint h 4) + Landmark.y (keypoint h 0)) / 2 in
  currentScale after = currentScale refs
  /\ exists group' : Object3D,
       groupRef after = Some group'
       /\ Euler.x (rotation group')
          = lerp (Position.x (currentRotation refs)) ((rawY - 0.5) * 2 * 2.5) 0.1
       /\ Euler.y (rotation group')
          = lerp (Position.y (currentRotation refs)) ((0.5 - rawX) * 2 * 2.5) 0.1.
Proof.
  intros Hwf Hpinch Hg hs after rawX rawY. unfold well_formed in Hwf.
  subst after hs. unfold exec. rewrite predictWebcam_single by lia.
  change PINCH_THRESHOLD with 0.05. rewrite Hpinch. cbn [snd handStateRef].
  rewrite useFrame_groupRef, Hg. cbn [option_map].
  rewrite !useFrame_currentRotation, !useFrame_currentScale.
  cbn [singleState isDetected mode position andb Mode_eqb Position.x Position.y
       scenePosition midpoint].
  split; [reflexivity|]. eexists. split; [reflexivity|]. split; reflexivity.
Qed.

(** X18.  Zoom, end to end: after a two-hand frame that leaves the latch
    on, the next rendered frame moves the remembered scale one lerp step of
    factor 0.1 toward 0.8 + clamp01((d - 0.2) * 2) * 3.2 with d the 2D
    wrist distance, keeps the remembered rotation, and leaves the yaw of a
    mounted group as it was. *)
Theorem X18_zoom_scales (s : TrackerRefs) (a b : Hand) (time delta : float)
    (refs : SceneRefs) (group : Object3D) :
  well_formed a -> well_formed b ->
  isZoomActiveRef (exec (predictWebcam hypot (mkResult [a; b])) s) = true ->
  groupRef refs = Some group ->
  let hs := handStateRef (exec (predictWebcam hypot (mkResult [a; b])) s) in
  let after := useFrame sin cos lerp hs time delta refs in
  let dx := Landmark.x (keypoint a 0) - Landmark.x (keypoint b 0) in
  let dy := Landmark.y (keypoint a 0) - Landmark.y (keypoint b 0) in
  let d := Math.sqrt (dx * dx + dy * dy) in
  currentScale after
  = lerp (currentScale refs) (0.8 + Math.max [0; Math.min [1; (d - 0.2) * 2]] * 3.2) 0.1
  /\ currentRotation after = currentRotation refs
  /\ exists group' : Object3D,
       groupRef after = Some group'
       /\ Euler.y (rotation group') = Euler.y (rotation group)
       /\ Vector3.x (scale group') = currentScale after.
Proof.
  intros Ha Hb Hon Hg hs after dx dy d. unfold well_formed in Ha, Hb.
  subst after hs. revert Hon. unfold exec. rewrite predictWebcam_two by lia.
  cbn [snd handStateRef isZoomActiveRef]. intros ->.
  rewrite useFrame_groupRef, Hg. cbn [option_map].
  rewrite !useFrame_currentRotation, !useFrame_currentScale.
  cbn [zoomState isDetected mode handDistance andb Mode_eqb].
  split; [reflexivity|]. split; [reflexivity|].
  eexists. split; [reflexivity|]. split; reflexivity.
Qed.

End EndToEnd.

(** * Sample runs, witnesses and the counterexample *)

(** Two fists 0.1 apart arm the latch and emit ZOOM. *)
Example two_close_fists_arm :
  let s' := exec (predictWebcam hypot_sqrt (mkResult [fist 0.45 0.5; fist 0.55 0.5]))
                 idleRefs in
  isZoomActiveRef s' = true /\ mode (handStateRef s') = ZOOM.
Proof. vm_compute. split; reflexivity. Qed.

(** Two open hands 0.1 apart do not arm it. *)
Example two_close_open_hands_wait :
  let s' := exec (predictWebcam hypot_sqrt
                    (mkResult [openHand 0.45 0.5; openHand 0.55 0.5])) idleRefs in
  isZoomActiveRef s' = false /\ mode (handStateRef s') = IDLE.
Proof. vm_compute. split; reflexivity. Qed.

(** Once armed, fists may move apart: the latch holds until both hands open. *)
Example armed_fists_apart_hold :
  let s' := exec (predictWebcam hypot_sqrt (mkResult [fist 0.2 0.5; fist 0.8 0.5]))
                 armedRefs in
  isZoomActiveRef s' = true /\ mode (handStateRef s') = ZOOM.
Proof. vm_compute. split; reflexivity. Qed.

Example armed_open_hands_release :
  let s' := exec (predictWebcam hypot_sqrt
                    (mkResult [openHand 0.2 0.5; openHand 0.8 0.5])) armedRefs in
  isZoomActiveRef s' = false /\ mode (handStateRef s') = IDLE.
Proof. vm_compute. split; reflexivity. Qed.

(** A truncated hand makes the one-hand branch throw after the latch was cleared. *)
Example truncated_hand_throws :
  predictWebcam hypot_sqrt (mkResult [firstn 4 (fist 0.5 0.5)]) armedRefs
  = (TypeError, idleRefs).
Proof. vm_compute. reflexivity. Qed.

(** C2 at a sample ZOOM record with hands 0.5 apart. *)
Lemma C2_witness :
  isDetected zoomingHand = true /\ mode zoomingHand = ZOOM
  /\ currentScale
       (useFrame (fun t => t) (fun _ => 1) MathUtils_lerp zoomingHand 0 0.016 tiltedScene)
     = MathUtils_lerp 1.5 (0.8 + Math.max [0; Math.min [1; (0.5 - 0.2) * 2]] * 3.2) 0.1.
Proof.
  split; [reflexivity|]. split; [reflexivity|].
  exact (proj1 (C2_zoom_target_scale (fun t => t) (fun _ => 1) MathUtils_lerp
                  zoomingHand 0 0.016 tiltedScene eq_refl eq_refl)).
Defined.

(** C2 as stated fails.  Were [0.2, 0.8] mapped linearly onto [0.8, 4.0],
    handDistance 0.75 would give about 3.73; the callback's target is
    already 4 there, off by more than 0.25. *)
Lemma C2_counterexample :
  (0.2 <=? 0.75) = true /\ (0.75 <=? 0.8) = true
  /\ targetScale 0.75 = 4
  /\ linearMap 0.2 0.8 0.8 4 0.75 = 3.7333333333333334
  /\ ~ (forall hd : float,
          (0.2 <=? hd) = true -> (hd <=? 0.8) = true ->
          (abs (targetScale hd - linearMap 0.2 0.8 0.8 4 hd) <=? 0.25) = true).
Proof.
  repeat split; try (vm_compute; reflexivity).
  intros H. specialize (H 0.75 eq_refl eq_refl). vm_compute in H. discriminate H.
Qed.

(** C3 at a hand whose thumb-index distance is exactly 0.05. *)
Lemma C3_witness :
  well_formed boundaryHand
  /\ (thumbIndexDistance boundaryHand =? 0.05) = true
  /\ isPinched
       (handStateRef (exec (predictWebcam hypot_sqrt (mkResult [boundaryHand])) armedRefs))
     = false.
Proof.
  split; [reflexivity|]. split; [vm_compute; reflexivity|].
  destruct (C3_pinch_threshold hypot_sqrt armedRefs boundaryHand eq_refl)
    as (_ & _ & _ & Hboundary & _).
  apply Hboundary. vm_compute. reflexivity.
Defined.

(** C6 at two fists that arm the latch around the frame centre, and at a
    single hand centred in the frame. *)
Lemma C6_witness :
  let two :=
    handStateRef
      (exec (predictWebcam hypot_sqrt (mkResult [fist 0.45 0.5; fist 0.55 0.5]))
            idleRefs) in
  let one :=
    handStateRef (exec (predictWebcam hypot_sqrt (mkResult [centredHand])) idleRefs) in
  well_formed (fist 0.45 0.5) /\ well_formed (fist 0.55 0.5) /\ well_formed centredHand
  /\ mode two = ZOOM
  /\ position two = Position.mk 0 0
  /\ position one = Position.mk 0 0.
Proof.
  cbv zeta.
  destruct (C6_position_mapping hypot_sqrt idleRefs (fist 0.45 0.5) (fist 0.55 0.5)
              centredHand eq_refl eq_refl eq_refl) as (Htwo & _ & Hone & _).
  assert (Hzoom : mode (handStateRef
                          (exec (predictWebcam hypot_sqrt
                                   (mkResult [fist 0.45 0.5; fist 0.55 0.5])) idleRefs))
                  = ZOOM) by (vm_compute; reflexivity).
  split; [reflexivity|]. split; [reflexivity|]. split; [reflexivity|].
  split; [exact Hzoom|]. split.
  - rewrite (Htwo Hzoom). vm_compute. reflexivity.
  - rewrite Hone. vm_compute. reflexivity.
Defined.

(** C7 at an open hand and at a fist. *)
Lemma C7_witness :
  well_formed (openHand 0.5 0.5)
  /\ isHandOpen hypot_sqrt (openHand 0.5 0.5) = Normal true
  /\ well_formed (fist 0.5 0.5)
  /\ isHandOpen hypot_sqrt (fist 0.5 0.5) = Normal false.
Proof.
  split; [reflexivity|]. split.
  - rewrite (proj1 (C7_isHandOpen_counts_fingers hypot_sqrt (openHand 0.5 0.5) eq_refl)).
    vm_compute. reflexivity.
  - split; [reflexivity|].
    rewrite (proj1 (C7_isHandOpen_counts_fingers hypot_sqrt (fist 0.5 0.5) eq_refl)).
    vm_compute. reflexivity.
Defined.

(** C8 at a fist shown twice, starting from an armed latch. *)
Lemma C8_witness :
  Forall well_formed [fist 0.45 0.5; fist 0.55 0.5]
  /\ well_formed (fist 0.5 0.5)
  /\ handStateRef
       (exec (predictWebcam hypot_sqrt (mkResult [fist 0.5 0.5]))
          (exec (predictWebcam hypot_sqrt (mkResult [fist 0.5 0.5])) armedRefs))
     = handStateRef (exec (predictWebcam hypot_sqrt (mkResult [fist 0.5 0.5])) armedRefs).
Proof.
  assert (Hr : Forall well_formed [fist 0.45 0.5; fist 0.55 0.5])
    by (repeat constructor).
  split; [exact Hr|]. split; [reflexivity|].
  destruct (C8_deterministic hypot_sqrt (mkResult [fist 0.45 0.5; fist 0.55 0.5])
              (fist 0.5 0.5) armedRefs idleRefs Hr eq_refl) as (_ & _ & _ & Hsame & _).
  exact Hsame.
Defined.

(** C9 at a tilted group while zooming. *)
Lemma C9_witness :
  isDetected zoomingHand = true /\ mode zoomingHand <> ROTATE
  /\ groupRef tiltedScene = Some tiltedGroup
  /\ exists group' : Object3D,
       groupRef (useFrame (fun t => t) (fun _ => 1) MathUtils_lerp zoomingHand 0 0.016
                   tiltedScene) = Some group'
       /\ Euler.x (rotation group') = MathUtils_lerp 0.4 0 0.05
       /\ Euler.y (rotation group') = 1.25.
Proof.
  assert (Hm : mode zoomingHand <> ROTATE) by discriminate.
  split; [reflexivity|]. split; [exact Hm|]. split; [reflexivity|].
  exact (C9_zoom_relaxes_pitch (fun t => t) (fun _ => 1) MathUtils_lerp zoomingHand
           0 0.016 tiltedScene tiltedGroup eq_refl Hm eq_refl).
Defined.

(** C10 at two fists far apart: pinched, yet IDLE. *)
Lemma C10_witness :
  let s' := exec (predictWebcam hypot_sqrt (mkResult [fist 0.2 0.5; fist 0.8 0.5]))
                 idleRefs in
  well_formed (fist 0.2 0.5) /\ well_formed (fist 0.8 0.5)
  /\ isZoomActiveRef s' = false
  /\ mode (handStateRef s') = IDLE
  /\ isPinched (handStateRef s') = true.
Proof.
  cbv zeta.
  assert (Hoff : isZoomActiveRef
                   (exec (predictWebcam hypot_sqrt
                            (mkResult [fist 0.2 0.5; fist 0.8 0.5])) idleRefs) = false)
    by (vm_compute; reflexivity).
  split; [reflexivity|]. split; [reflexivity|]. split; [exact Hoff|].
  destruct (C10_two_hands_idle hypot_sqrt idleRefs (fist 0.2 0.5) (fist 0.8 0.5)
              eq_refl eq_refl Hoff) as (Hmode & _ & _ & Hpinched & _).
  split; [exact Hmode|]. rewrite Hpinched. vm_compute. reflexivity.
Defined.

(** * Hand order and signs

    Facts of binary64 arithmetic read off its specification: addition
    commutes, [y - x] is the opposite of [x - y] (or both are +0), and a
    square root is never below zero. *)

Lemma SFadd_comm (prec emax : Z) (f g : spec_float) :
  SFadd prec emax f g = SFadd prec emax g f.
Proof.
  destruct f as [s|s| |s m e], g as [s'|s'| |s' m' e']; cbn [SFadd];
    try reflexivity; try (destruct s, s'; reflexivity).
  now rewrite Z.min_comm, Z.add_comm.
Qed.

Lemma float_add_comm (x y : float) : x + y = y + x.
Proof.
  apply Prim2SF_inj. rewrite !add_spec. apply SFadd_comm.
Qed.

Lemma binary_round_aux_opp (prec emax : Z) (s : bool) (m e : Z) (l : location) :
  binary_round_aux prec emax (negb s) m e l
  = SFopp (binary_round_aux prec emax s m e l).
Proof.
  unfold binary_round_aux.
  destruct (shr_fexp prec emax m e l) as [mrs' e'].
  destruct (shr_fexp prec emax _ e' loc_Exact) as [mrs'' e''].
  destruct (shr_m mrs''); try reflexivity.
  destruct (e'' <=? emax - prec)%Z; reflexivity.
Qed.

Lemma binary_round_opp (prec emax : Z) (s : bool) (m : positive) (e : Z) :
  binary_round prec emax (negb s) m e = SFopp (binary_round prec emax s m e).
Proof.
  unfold binary_round.
  destruct (shl_align m e _) as [mz ez]. apply binary_round_aux_opp.
Qed.

Lemma binary_normalize_opp (prec emax : Z) (m e : Z) :
  binary_normalize prec emax (- m) e false
  = match m with
    | Z0 => S754_zero false
    | _ => SFopp (binary_normalize prec emax m e false)
    end.
Proof.
  destruct m as [|p|p]; cbn [Z.opp binary_normalize]; try reflexivity.
  - exact (binary_round_opp prec emax false p e).
  - exact (binary_round_opp prec emax true p e).
Qed.

Lemma SFsub_swap (prec emax : Z) (f g : spec_float) :
  SFsub prec emax g f = SFopp (SFsub prec emax f g)
  \/ (SFsub prec emax f g = S754_zero false /\ SFsub prec emax g f = S754_zero false).
Proof.
  destruct f as [s|s| |s m e], g as [s'|s'| |s' m' e']; cbn [SFsub SFopp];
    try (left; reflexivity); try (destruct s, s'; cbn; tauto).
  rewrite (Z.min_comm e' e).
  set (A := cond_Zopp s (Z.pos (fst (shl_align m e (Z.min e e'))))).
  set (B := cond_Zopp s' (Z.pos (fst (shl_align m' e' (Z.min e e'))))).
  replace (B - A)%Z with (- (A - B))%Z by lia.
  rewrite binary_normalize_opp.
  destruct (A - B)%Z eqn:E.
  - right. split; reflexivity.
  - now left.
  - now left.
Qed.

Lemma SFmul_opp_opp (prec emax : Z) (f : spec_float) :
  SFmul prec emax (SFopp f) (SFopp f) = SFmul prec emax f f.
Proof.
  destruct f as [s|s| |s m e]; cbn [SFopp SFmul]; try reflexivity;
    now destruct s.
Qed.

Lemma sq_sub_swap (x y : float) : (x - y) * (x - y) = (y - x) * (y - x).
Proof.
  apply Prim2SF_inj. rewrite !mul_spec, !sub_spec. unfold SF64mul, SF64sub.
  destruct (SFsub_swap prec emax (Prim2SF x) (Prim2SF y)) as [H|[H H']].
  - now rewrite H, SFmul_opp_opp.
  - now rewrite H, H'.
Qed.

Lemma binary_round_aux_not_negative (m e : Z) (l : location) :
  SFltb (binary_round_aux prec emax false m e l) (S754_zero false) = false.
Proof.
  unfold binary_round_aux.
  destruct (shr_fexp prec emax m e l) as [mrs' e'].
  destruct (shr_fexp prec emax _ e' loc_Exact) as [mrs'' e''].
  destruct (shr_m mrs''); try reflexivity.
  destruct (e'' <=? emax - prec)%Z; reflexivity.
Qed.

Lemma sqrt_not_negative (v : float) : (Math.sqrt v <? 0) = false.
Proof.
  unfold Math.sqrt. rewrite FloatAxioms.ltb_spec, sqrt_spec, Prim2SF_zero.
  unfold SF64sqrt, SFsqrt.
  destruct (Prim2SF v) as [s|s| |s m e]; try destruct s; try reflexivity.
  destruct (SFsqrt_core_binary prec emax (Z.pos m) e) as [[mz ez] lz].
  apply binary_round_aux_not_negative.
Qed.

Section HandOrder.

Variable hypot : float -> float -> float.

Lemma wristDistance_sym (a b : Hand) : wristDistance a b = wristDistance b a.
Proof.
  unfold wristDistance. cbv zeta.
  now rewrite (sq_sub_swap (Landmark.x (keypoint a 0)) (Landmark.x (keypoint b 0))),
              (sq_sub_swap (Landmark.y (keypoint a 0)) (Landmark.y (keypoint b 0))).
Qed.

Lemma latchStep_sym (latch : bool) (a b : Hand) :
  latchStep hypot latch a b = latchStep hypot latch b a.
Proof.
  unfold latchStep. rewrite (wristDistance_sym a b).
  now rewrite (andb_comm (handOpen hypot a)),
              (andb_comm (negb (handOpen hypot a))).
Qed.

Lemma zoomState_sym (a b : Hand) : zoomState a b = zoomState b a.
Proof.
  unfold zoomState, midpoint. rewrite (wristDistance_sym a b).
  now rewrite (float_add_comm (Landmark.x (keypoint a 0))),
              (float_add_comm (Landmark.y (keypoint a 0))).
Qed.

(** X19.  The order in which the landmarker lists two complete hands does
    not matter to zooming: the latch after the frame is the same for
    [a; b] and for [b; a], and when it is on, so is the whole emitted
    record (wrist distance and wrist midpoint are symmetric in binary64
    arithmetic). *)
Theorem X19_zoom_ignores_hand_order (s : TrackerRefs) (a b : Hand) :
  well_formed a -> well_formed b ->
  let ab := exec (predictWebcam hypot (mkResult [a; b])) s in
  let ba := exec (predictWebcam hypot (mkResult [b; a])) s in
  isZoomActiveRef ab = isZoomActiveRef ba
  /\ (isZoomActiveRef ab = true -> handStateRef ab = handStateRef ba).
Proof.
  intros Ha Hb ab ba. unfold well_formed in Ha, Hb. subst ab ba. unfold exec.
  rewrite !predictWebcam_two by lia. cbn [snd isZoomActiveRef handStateRef].
  rewrite (latchStep_sym (isZoomActiveRef s) b a).
  split; [reflexivity|]. intros ->. apply zoomState_sym.
Qed.

(** X20.  Whatever frames the landmarker delivers after mount, the emitted
    pinch distance and hand distance are never below zero (they are NaN
    when the coordinates are not numbers). *)
Theorem X20_distances_not_negative (frames : list HandLandmarkerResult) :
  let hs := handStateRef (exec (detectionLoop hypot frames) idleRefs) in
  (pinchDistance hs <? 0) = false /\ (handDistance hs <? 0) = false.
Proof.
  cbv zeta.
  apply (detectionLoop_preserves hypot
           (fun s => (pinchDistance (handStateRef s) <? 0) = false
                     /\ (handDistance (handStateRef s) <? 0) = false)
           (fun _ => True)).
  - intros r s _ Hs. unfold frameEffect.
    destruct (landmarks r) as [|a [|b [|c rest]]]; cbn [snd handStateRef].
    + split; reflexivity.
    + destruct (9 <=? length a)%nat; cbn [snd handStateRef]; [|exact Hs].
      split; [apply sqrt_not_negative | reflexivity].
    + destruct ((21 <=? length a)%nat && (21 <=? length b)%nat);
        cbn [snd handStateRef]; [|exact Hs].
      destruct (latchStep hypot (isZoomActiveRef s) a b).
      * split; [reflexivity | apply sqrt_not_negative].
      * split; [apply sqrt_not_negative | reflexivity].
    + destruct (9 <=? length a)%nat; cbn [snd handStateRef]; [|exact Hs].
      split; [apply sqrt_not_negative | reflexivity].
  - now apply Forall_forall.
  - split; reflexivity.
Qed.

End HandOrder.

(** * Witnesses of the further properties *)

(** X2 at a four-keypoint hand fed to an armed tracker. *)
Lemma X2_witness :
  let r := mkResult [firstn 4 (fist 0.5 0.5)] in
  outcome (predictWebcam hypot_sqrt r) armedRefs = TypeError
  /\ handStateRef (exec (predictWebcam hypot_sqrt r) armedRefs)
     = handStateRef armedRefs
  /\ isZoomActiveRef (exec (predictWebcam hypot_sqrt r) armedRefs) = false.
Proof.
  cbv zeta.
  assert (Hthrow : outcome (predictWebcam hypot_sqrt
                              (mkResult [firstn 4 (fist 0.5 0.5)])) armedRefs
                   = TypeError) by (vm_compute; reflexivity).
  destruct (X2_throw_keeps_record hypot_sqrt (mkResult [firstn 4 (fist 0.5 0.5)])
              armedRefs Hthrow) as (Hrecord & _ & Hlatch).
  split; [exact Hthrow|]. split; [exact Hrecord|].
  apply Hlatch. cbn. discriminate.
Defined.

(** X3 at two close fists that arm the latch. *)
Lemma X3_witness :
  let r := mkResult [fist 0.45 0.5; fist 0.55 0.5] in
  outcome (predictWebcam hypot_sqrt r) idleRefs = Normal tt
  /\ isZoomActiveRef (exec (predictWebcam hypot_sqrt r) idleRefs) = true
  /\ mode (handStateRef (exec (predictWebcam hypot_sqrt r) idleRefs)) = ZOOM.
Proof.
  cbv zeta.
  assert (Hok : outcome (predictWebcam hypot_sqrt
                           (mkResult [fist 0.45 0.5; fist 0.55 0.5])) idleRefs
                = Normal tt) by (vm_compute; reflexivity).
  assert (Hon : isZoomActiveRef
                  (exec (predictWebcam hypot_sqrt
                           (mkResult [fist 0.45 0.5; fist 0.55 0.5])) idleRefs)
                = true) by (vm_compute; reflexivity).
  destruct (X3_mode_follows_latch hypot_sqrt
              (mkResult [fist 0.45 0.5; fist 0.55 0.5]) idleRefs Hok)
    as (Hmode & _).
  split; [exact Hok|]. split; [exact Hon|]. apply Hmode. exact Hon.
Defined.

(** X7 at fists that move from 0.6 to 0.8 apart after arming. *)
Lemma X7_witness :
  let frames := [mkResult [fist 0.2 0.5; fist 0.8 0.5];
                 mkResult [fist 0.1 0.5; fist 0.9 0.5]] in
  isZoomActiveRef armedRefs = true
  /\ Forall (fun r => holdingFrame hypot_sqrt r = true) frames
  /\ isZoomActiveRef (exec (detectionLoop hypot_sqrt frames) armedRefs) = true
  /\ mode (handStateRef (exec (detectionLoop hypot_sqrt frames) armedRefs)) = ZOOM
  /\ handDistance (handStateRef (exec (detectionLoop hypot_sqrt frames) armedRefs))
     = wristDistance (fist 0.1 0.5) (fist 0.9 0.5).
Proof.
  cbv zeta.
  assert (Hall : Forall (fun r => holdingFrame hypot_sqrt r = true)
                   [mkResult [fist 0.2 0.5; fist 0.8 0.5];
                    mkResult [fist 0.1 0.5; fist 0.9 0.5]])
    by (repeat constructor).
  destruct (X7_zoom_holds hypot_sqrt _ armedRefs eq_refl Hall) as (_ & Hon & Hlast).
  destruct (Hlast (fist 0.1 0.5) (fist 0.9 0.5) eq_refl) as (Hmode & Hdist).
  split; [reflexivity|]. split; [exact Hall|]. split; [exact Hon|].
  split; [exact Hmode|exact Hdist].
Defined.

(** X8 at open hands held close, a single hand, fists far apart and a
    truncated hand. *)
Lemma X8_witness :
  let frames := [mkResult [openHand 0.45 0.5; openHand 0.55 0.5];
                 mkResult [fist 0.5 0.5];
                 mkResult [fist 0.2 0.5; fist 0.8 0.5];
                 mkResult [firstn 4 (fist 0.5 0.5)]] in
  isZoomActiveRef idleRefs = false
  /\ mode (handStateRef idleRefs) <> ZOOM
  /\ Forall (fun r => armingFrame hypot_sqrt r = false) frames
  /\ isZoomActiveRef (exec (detectionLoop hypot_sqrt frames) idleRefs) = false
  /\ mode (handStateRef (exec (detectionLoop hypot_sqrt frames) idleRefs)) <> ZOOM.
Proof.
  cbv zeta.
  assert (Hm : mode (handStateRef idleRefs) <> ZOOM) by discriminate.
  assert (Hall : Forall (fun r => armingFrame hypot_sqrt r = false)
                   [mkResult [openHand 0.45 0.5; openHand 0.55 0.5];
                    mkResult [fist 0.5 0.5];
                    mkResult [fist 0.2 0.5; fist 0.8 0.5];
                    mkResult [firstn 4 (fist 0.5 0.5)]])
    by (repeat constructor).
  split; [reflexivity|]. split; [exact Hm|]. split; [exact Hall|].
  exact (X8_no_arming_without_fists hypot_sqrt _ idleRefs eq_refl Hm Hall).
Defined.

(** X9 at a fist and at the same fist with its thumb elsewhere and depth. *)
Lemma X9_witness :
  well_formed (fist 0.5 0.5) /\ well_formed (fistWithDepth 0.5 0.5)
  /\ Forall (sameXY (fist 0.5 0.5) (fistWithDepth 0.5 0.5)) readByIsHandOpen
  /\ keypoint (fist 0.5 0.5) 4 <> keypoint (fistWithDepth 0.5 0.5) 4
  /\ isHandOpen hypot_sqrt (fist 0.5 0.5) = isHandOpen hypot_sqrt (fistWithDepth 0.5 0.5).
Proof.
  assert (Hsame : Forall (sameXY (fist 0.5 0.5) (fistWithDepth 0.5 0.5))
                    readByIsHandOpen)
    by (repeat constructor).
  split; [reflexivity|]. split; [reflexivity|]. split; [exact Hsame|].
  split; [vm_compute; discriminate|].
  exact (X9_isHandOpen_reads hypot_sqrt (fist 0.5 0.5) (fistWithDepth 0.5 0.5)
           eq_refl eq_refl Hsame).
Defined.

(** X10 at open hands 0.5 apart before arming. *)
Lemma X10_witness :
  (if negb false
   then (if (0.5 <? ZOOM_ACTIVATION_THRESHOLD) && (negb true && negb true)
         then true else false)
   else (if true && true then false else false)) = false
  /\ is_nan 0.5 = false
  /\ statusText 0.5 (negb true && negb true) = "靠近双手"%string.
Proof.
  split; [reflexivity|]. split; [reflexivity|].
  destruct (X10_waiting_hint 0.5 false true true eq_refl) as (Hnum & _).
  destruct (Hnum eq_refl) as (_ & Hfar & _).
  apply Hfar. reflexivity.
Defined.

(** X11 at a rotating hand over a tilted group. *)
Lemma X11_witness :
  isDetected rotatingHand = true /\ mode rotatingHand = ROTATE
  /\ groupRef tiltedScene = Some tiltedGroup
  /\ currentRotation
       (useFrame (fun t => t) (fun _ => 1) MathUtils_lerp rotatingHand 0 0.016
          tiltedScene)
     = Position.mk (MathUtils_lerp 0 (-0.4 * 2.5) 0.1) (MathUtils_lerp 0 (0.2 * 2.5) 0.1).
Proof.
  split; [reflexivity|]. split; [reflexivity|]. split; [reflexivity|].
  exact (proj1 (X11_rotate_uses_remembered_rotation (fun t => t) (fun _ => 1)
                  MathUtils_lerp rotatingHand 0 0.016 tiltedScene tiltedGroup
                  eq_refl eq_refl eq_refl)).
Defined.

(** X12 at the neutral record over a tilted group. *)
Lemma X12_witness :
  isDetected idleHand = false /\ groupRef tiltedScene = Some tiltedGroup
  /\ currentScale
       (useFrame (fun t => t) (fun _ => 1) MathUtils_lerp idleHand 0 0.016 tiltedScene)
     = 1.5.
Proof.
  split; [reflexivity|]. split; [reflexivity|].
  destruct (X12_idle_drift (fun t => t) (fun _ => 1) MathUtils_lerp idleHand 0 0.016
              tiltedScene tiltedGroup eq_refl eq_refl) as (_ & Hscale & _).
  exact Hscale.
Defined.

(** X17 at a pinching fist in the centre of the frame. *)
Lemma X17_witness :
  well_formed (fist 0.5 0.5)
  /\ (thumbIndexDistance (fist 0.5 0.5) <? 0.05) = true
  /\ groupRef tiltedScene = Some tiltedGroup
  /\ currentScale
       (useFrame (fun t => t) (fun _ => 1) MathUtils_lerp
          (handStateRef (exec (predictWebcam hypot_sqrt (mkResult [fist 0.5 0.5]))
                           idleRefs))
          0 0.016 tiltedScene)
     = 1.5.
Proof.
  assert (Hp : (thumbIndexDistance (fist 0.5 0.5) <? 0.05) = true)
    by (vm_compute; reflexivity).
  split; [reflexivity|]. split; [exact Hp|]. split; [reflexivity|].
  exact (proj1 (X17_pinch_rotates hypot_sqrt (fun t => t) (fun _ => 1) MathUtils_lerp
                  idleRefs (fist 0.5 0.5) 0 0.016 tiltedScene tiltedGroup
                  eq_refl Hp eq_refl)).
Defined.

(** X18 at two close fists that arm the latch. *)
Lemma X18_witness :
  let s' := exec (predictWebcam hypot_sqrt (mkResult [fist 0.45 0.5; fist 0.55 0.5]))
                 idleRefs in
  well_formed (fist 0.45 0.5) /\ well_formed (fist 0.55 0.5)
  /\ isZoomActiveRef s' = true
  /\ groupRef tiltedScene = Some tiltedGroup
  /\ currentRotation
       (useFrame (fun t => t) (fun _ => 1) MathUtils_lerp (handStateRef s') 0 0.016
          tiltedScene)
     = currentRotation tiltedScene.
Proof.
  cbv zeta.
  assert (Hon : isZoomActiveRef
                  (exec (predictWebcam hypot_sqrt
                           (mkResult [fist 0.45 0.5; fist 0.55 0.5])) idleRefs)
                = true) by (vm_compute; reflexivity).
  split; [reflexivity|]. split; [reflexivity|]. split; [exact Hon|].
  split; [reflexivity|].
  destruct (X18_zoom_scales hypot_sqrt (fun t => t) (fun _ => 1) MathUtils_lerp
              idleRefs (fist 0.45 0.5) (fist 0.55 0.5) 0 0.016 tiltedScene tiltedGroup
              eq_refl eq_refl Hon eq_refl) as (_ & Hrot & _).
  exact Hrot.
Defined.

(** X19 at a fist and an open hand, listed both ways, with the latch on. *)
Lemma X19_witness :
  well_formed (fist 0.2 0.5) /\ well_formed (openHand 0.8 0.5)
  /\ isZoomActiveRef
       (exec (predictWebcam hypot_sqrt (mkResult [fist 0.2 0.5; openHand 0.8 0.5]))
             armedRefs) = true
  /\ handStateRef
       (exec (predictWebcam hypot_sqrt (mkResult [fist 0.2 0.5; openHand 0.8 0.5]))
             armedRefs)
     = handStateRef
         (exec (predictWebcam hypot_sqrt (mkResult [openHand 0.8 0.5; fist 0.2 0.5]))
               armedRefs).
Proof.
  assert (Hon : isZoomActiveRef
                  (exec (predictWebcam hypot_sqrt
                           (mkResult [fist 0.2 0.5; openHand 0.8 0.5])) armedRefs)
                = true) by (vm_compute; reflexivity).
  split; [reflexivity|]. split; [reflexivity|]. split; [exact Hon|].
  destruct (X19_zoom_ignores_hand_order hypot_sqrt armedRefs (fist 0.2 0.5)
              (openHand 0.8 0.5) eq_refl eq_refl) as (_ & Hsame).
  exact (Hsame Hon).
Defined.
